(** * cAdvisor: the per-container housekeeping engine and the stats normalizer

    A shallow embedding of
      - [container/libcontainer/helpers.go] (the normalizer [toContainerStats]),
      - [manager/container.go] (the per-container manager: construction,
        [GetInfo], and the interval adaptation of [nextHousekeeping]),
    followed by the properties of the specification that concern them.

    Conventions.  Go's [uint64] and [int64] (hence [time.Duration]) are
    carried by [Z] with the wrap-around of each operation written out.  A Go
    pair [(value, error)] is a [result].  A run-time panic (index out of
    range) is [None].  A pointer that may be [nil] is an [option]. *)

From stdpp Require Import base numbers option list strings gmap.

Local Open Scope Z_scope.

(** ** Machine integers *)

Module Word.

Definition modulus64 : Z := 2 ^ 64.
Definition half64 : Z := 2 ^ 63.

(** Range of a [uint64] and of an [int64]. *)
Definition is_u64 (z : Z) : Prop := 0 ≤ z < modulus64.
Definition is_i64 (z : Z) : Prop := - half64 ≤ z < half64.

(** Reduction of a mathematical integer to the value a 64-bit register
    holds, read unsigned and read in two's complement. *)
Definition wrap_u64 (z : Z) : Z := z mod modulus64.
Definition wrap_i64 (z : Z) : Z := (z + half64) mod modulus64 - half64.

Definition add_u64 (a b : Z) : Z := wrap_u64 (a + b).
Definition sub_u64 (a b : Z) : Z := wrap_u64 (a - b).
Definition mul_i64 (a b : Z) : Z := wrap_i64 (a * b).

(** The sum of a list of integers, without any reduction. *)
Definition sum (l : list Z) : Z := foldr Z.add 0 l.

End Word.

(** ** [time]: instants and durations

    [time.Duration] is an [int64] count of nanoseconds.  An instant is a
    point on the nanosecond time line; [Add] is the library's [t.Add(d)],
    which returns the instant [t + d]. *)

Module time.

Definition Duration : Type := Z.
Definition Time : Type := Z.

Definition Nanosecond : Duration := 1.
Definition Millisecond : Duration := 1000000.
Definition Second : Duration := 1000000000.

Definition Add (t : Time) (d : Duration) : Time := t + d.

End time.

(** ** Go's [(value, error)] results *)

Definition error : Type := string.

Inductive result (A : Type) : Type :=
| Ok (a : A)
| Err (e : error).
Arguments Ok {A} a.
Arguments Err {A} e.

(** ** Package [info]: the canonical statistics model *)

Module info.

(** Modelled from the spec: the declaration of [info.ContainerReference] is
    not among the sources; it is the identity of a container, the two fields
    [NewContainerData] copies. *)
Record ContainerReference : Type := {
  Name : string;
  Aliases : list string;
}.

(** Modelled from the spec: the declaration of [info.ContainerSpec] is not
    among the sources; the spec describes it as the capability flags of the
    isolated resource domains. *)
Record ContainerSpec : Type := {
  HasCpu : bool;
  HasMemory : bool;
  HasNetwork : bool;
  HasFilesystem : bool;
}.

(** Modelled from the spec: the declarations of [info.ContainerStats] and
    of its parts are not among the sources; the fields are those the
    normalizer assigns ([ret.Cpu.Usage.User], [ret.Memory.WorkingSet], ...)
    and the spec's data model lists.  All counters are [uint64]. *)
Record CpuUsage : Type := {
  Total : Z;
  PerCpu : list Z;
  User : Z;
  System : Z;
}.

(** Modelled from the spec: [Cpu] holds the usage record, [Cpu.Usage]. *)
Record CpuStats : Type := {
  Usage : CpuUsage;
}.

(** Modelled from the spec: the page-fault counters, kept once for the
    container and once for its hierarchy. *)
Record MemoryStatsMemoryData : Type := {
  Pgfault : Z;
  Pgmajfault : Z;
}.

(** Modelled from the spec: [Memory]; the field [Memory.Usage] is
    [MemUsage] here, [Usage] being the field of [CpuStats]. *)
Record MemoryStats : Type := {
  MemUsage : Z;
  WorkingSet : Z;
  ContainerData : MemoryStatsMemoryData;
  HierarchicalData : MemoryStatsMemoryData;
}.

(** Modelled from the spec: [Network] is a pass-through of the raw network
    counters, structurally identical to [libcontainer.NetworkStats]: the
    normalizer converts one into the other by a type conversion. *)
Record NetworkStats : Type := {
  RxBytes : Z;
  RxPackets : Z;
  RxErrors : Z;
  RxDropped : Z;
  TxBytes : Z;
  TxPackets : Z;
  TxErrors : Z;
  TxDropped : Z;
}.

(** Modelled from the spec: one point-in-time sample. *)
Record ContainerStats : Type := {
  Timestamp : time.Time;
  Cpu : CpuStats;
  Memory : MemoryStats;
  Network : NetworkStats;
}.

(** Zero values. *)
Definition zeroCpuUsage : CpuUsage :=
  {| Total := 0; PerCpu := []; User := 0; System := 0 |}.
Definition zeroCpuStats : CpuStats := {| Usage := zeroCpuUsage |}.
Definition zeroMemoryData : MemoryStatsMemoryData :=
  {| Pgfault := 0; Pgmajfault := 0 |}.
Definition zeroMemoryStats : MemoryStats :=
  {| MemUsage := 0; WorkingSet := 0;
     ContainerData := zeroMemoryData; HierarchicalData := zeroMemoryData |}.
Definition zeroNetworkStats : NetworkStats :=
  {| RxBytes := 0; RxPackets := 0; RxErrors := 0; RxDropped := 0;
     TxBytes := 0; TxPackets := 0; TxErrors := 0; TxDropped := 0 |}.

#[global] Instance CpuUsage_eq_dec : EqDecision CpuUsage.
Proof. solve_decision. Defined.
#[global] Instance CpuStats_eq_dec : EqDecision CpuStats.
Proof. solve_decision. Defined.
#[global] Instance MemoryData_eq_dec : EqDecision MemoryStatsMemoryData.
Proof. solve_decision. Defined.
#[global] Instance MemoryStats_eq_dec : EqDecision MemoryStats.
Proof. solve_decision. Defined.
#[global] Instance NetworkStats_eq_dec : EqDecision NetworkStats.
Proof. solve_decision. Defined.

(** Modelled from the spec: the method [StatsEq] is declared in package
    [info], whose file is not among the sources.  The spec defines it as
    the comparison that holds when two samples have the same CPU, memory
    and network values, the timestamp being ignored. *)
Definition StatsEq (a b : ContainerStats) : bool :=
  bool_decide (Cpu a = Cpu b)
  && bool_decide (Memory a = Memory b)
  && bool_decide (Network a = Network b).

End info.

(** ** The raw snapshot: packages [cgroups] and [libcontainer]

    These are the types of the container library the normalizer reads.  The
    records keep the fields the normalizer touches, and the separately
    reported CPU total, which it does not read. *)

Module cgroups.

Record CpuUsage : Type := {
  TotalUsage : Z;
  PercpuUsage : list Z;
  UsageInKernelmode : Z;
  UsageInUsermode : Z;
}.

Record CpuStats : Type := {
  CpuUsage_ : CpuUsage;
}.

Record MemoryStats : Type := {
  Usage : Z;
  Stats_ : gmap string Z;
}.

Record Stats : Type := {
  CpuStats_ : CpuStats;
  MemoryStats_ : MemoryStats;
}.

End cgroups.

Module libcontainer.

Record NetworkStats : Type := {
  RxBytes : Z;
  RxPackets : Z;
  RxErrors : Z;
  RxDropped : Z;
  TxBytes : Z;
  TxPackets : Z;
  TxErrors : Z;
  TxDropped : Z;
}.

Record ContainerStats : Type := {
  NetworkStats_ : option NetworkStats;
  CgroupStats : option cgroups.Stats;
}.

End libcontainer.

(** ** [container/libcontainer/helpers.go]: the normalizer *)

Module helpers.

Import Word.

(** Field assignments on the records of package [info]. *)
Definition set_PerCpu_at (i : nat) (x : Z) (u : info.CpuUsage) : info.CpuUsage :=
  {| info.Total := info.Total u; info.PerCpu := <[i := x]> (info.PerCpu u);
     info.User := info.User u; info.System := info.System u |}.

Definition add_Total (x : Z) (u : info.CpuUsage) : info.CpuUsage :=
  {| info.Total := add_u64 (info.Total u) x; info.PerCpu := info.PerCpu u;
     info.User := info.User u; info.System := info.System u |}.

Definition set_Pgfault (v : Z) (m : info.MemoryStats) : info.MemoryStats :=
  {| info.MemUsage := info.MemUsage m; info.WorkingSet := info.WorkingSet m;
     info.ContainerData :=
       {| info.Pgfault := v;
          info.Pgmajfault := info.Pgmajfault (info.ContainerData m) |};
     info.HierarchicalData :=
       {| info.Pgfault := v;
          info.Pgmajfault := info.Pgmajfault (info.HierarchicalData m) |} |}.

Definition set_Pgmajfault (v : Z) (m : info.MemoryStats) : info.MemoryStats :=
  {| info.MemUsage := info.MemUsage m; info.WorkingSet := info.WorkingSet m;
     info.ContainerData :=
       {| info.Pgfault := info.Pgfault (info.ContainerData m);
          info.Pgmajfault := v |};
     info.HierarchicalData :=
       {| info.Pgfault := info.Pgfault (info.HierarchicalData m);
          info.Pgmajfault := v |} |}.

Definition set_WorkingSet (v : Z) (m : info.MemoryStats) : info.MemoryStats :=
  {| info.MemUsage := info.MemUsage m; info.WorkingSet := v;
     info.ContainerData := info.ContainerData m;
     info.HierarchicalData := info.HierarchicalData m |}.

(** The loop [for i := 0; i < n; i++ { ... }] of [toContainerStats], entered
    with [k] iterations left at index [i].  Each iteration reads
    [PercpuUsage[i]], stores it into [PerCpu[i]] and adds it to [Total];
    either indexing panics when [i] is out of range. *)
Fixpoint percpu_loop (src : list Z) (k i : nat) (u : info.CpuUsage)
  : option info.CpuUsage :=
  match k with
  | O => Some u
  | S k' =>
      match src !! i with
      | None => None
      | Some x =>
          if decide (i < length (info.PerCpu u))%nat
          then percpu_loop src k' (S i) (add_Total x (set_PerCpu_at i x u))
          else None
      end
  end.

(** The CPU part of the [if s != nil] block. *)
Definition normalizeCpu (c : cgroups.CpuUsage) : option info.CpuStats :=
  let n := length (cgroups.PercpuUsage c) in
  let u := {| info.Total := 0;
              info.PerCpu := replicate n 0;
              info.User := cgroups.UsageInUsermode c;
              info.System := cgroups.UsageInKernelmode c |} in
  u' ← percpu_loop (cgroups.PercpuUsage c) n 0 u;
  Some {| info.Usage := u' |}.

(** The memory part of the [if s != nil] block: four assignments in
    sequence, the last three guarded by the presence of a key. *)
Definition normalizeMemory (m : cgroups.MemoryStats) : info.MemoryStats :=
  let stats := cgroups.Stats_ m in
  let r0 := {| info.MemUsage := cgroups.Usage m; info.WorkingSet := 0;
               info.ContainerData := info.zeroMemoryData;
               info.HierarchicalData := info.zeroMemoryData |} in
  let r1 := match stats !! "pgfault"%string with
            | Some v => set_Pgfault v r0
            | None => r0
            end in
  let r2 := match stats !! "pgmajfault"%string with
            | Some v => set_Pgmajfault v r1
            | None => r1
            end in
  match stats !! "total_inactive_anon"%string with
  | Some v =>
      let r3 := set_WorkingSet (sub_u64 (info.MemUsage r2) v) r2 in
      match stats !! "total_active_file"%string with
      | Some v => set_WorkingSet (sub_u64 (info.WorkingSet r3) v) r3
      | None => r3
      end
  | None => r2
  end.

(** The conversion [(info.NetworkStats)(x)]. *)
Definition toNetworkStats (x : libcontainer.NetworkStats) : info.NetworkStats :=
  {| info.RxBytes := libcontainer.RxBytes x;
     info.RxPackets := libcontainer.RxPackets x;
     info.RxErrors := libcontainer.RxErrors x;
     info.RxDropped := libcontainer.RxDropped x;
     info.TxBytes := libcontainer.TxBytes x;
     info.TxPackets := libcontainer.TxPackets x;
     info.TxErrors := libcontainer.TxErrors x;
     info.TxDropped := libcontainer.TxDropped x |}.

(** [toContainerStats], with the reading of the clock ([time.Now()]) as
    the argument [now].  The argument is the struct the pointer refers to:
    both callers, [GetStats] and [GetStatsCgroupOnly], pass the address of
    a struct.  [None] is a panic. *)
Definition toContainerStats (now : time.Time)
    (libcontainerStats : libcontainer.ContainerStats)
  : option info.ContainerStats :=
  let s := libcontainer.CgroupStats libcontainerStats in
  cm ← match s with
       | Some s =>
           cpu ← normalizeCpu (cgroups.CpuUsage_ (cgroups.CpuStats_ s));
           Some (cpu, normalizeMemory (cgroups.MemoryStats_ s))
       | None => Some (info.zeroCpuStats, info.zeroMemoryStats)
       end;
  Some {| info.Timestamp := now;
          info.Cpu := cm.1;
          info.Memory := cm.2;
          info.Network :=
            match libcontainer.NetworkStats_ libcontainerStats with
            | Some n => toNetworkStats n
            | None => info.zeroNetworkStats
            end |}.

(** [GetStats], with the outcome of the library's
    [libcontainer.GetStats(config, state)] as the argument.  [None] is a
    panic. *)
Definition GetStats (now : time.Time)
    (libcontainerGetStats : result libcontainer.ContainerStats)
  : option (result info.ContainerStats) :=
  match libcontainerGetStats with
  | Err err => Some (Err err)
  | Ok libcontainerStats =>
      ret ← toContainerStats now libcontainerStats;
      Some (Ok ret)
  end.

(** [GetStatsCgroupOnly], with the outcome of the library's
    [cgroupfs.GetStats(cgroup)] as the argument: a pointer to the cgroup
    statistics, possibly [nil], or an error. *)
Definition GetStatsCgroupOnly (now : time.Time)
    (cgroupfsGetStats : result (option cgroups.Stats))
  : option (result info.ContainerStats) :=
  match cgroupfsGetStats with
  | Err err => Some (Err err)
  | Ok s =>
      ret ← toContainerStats now
              {| libcontainer.NetworkStats_ := None;
                 libcontainer.CgroupStats := s |};
      Some (Ok ret)
  end.

End helpers.


(** ** Packages [container] and [storage]: the collaborators' interfaces *)

Module container.

(** Modelled from the spec: package [container] is not among the sources.
    The manager lists with [LIST_SELF]. *)
Inductive ListType : Type :=
| LIST_SELF
| LIST_RECURSIVE.

(** Modelled from the spec: the interface [ContainerHandler] (identity,
    resource spec, stats snapshot, sub-container list, each with an error),
    under the method names the manager calls.  A value of this record is the
    handle as it answers at the time of an operation: one outcome per
    method. *)
Record ContainerHandler : Type := {
  ContainerReference : result info.ContainerReference;
  GetSpec : result (option info.ContainerSpec);
  GetStats : result (option info.ContainerStats);
  ListContainers : ListType → result (list info.ContainerReference);
}.

End container.

Module storage.

(** Modelled from the spec: the interface [StorageDriver] is not among the
    sources; this is the method the scheduler calls,
    [RecentStats(containerName, numStats)], which returns the most recent
    samples or an error. *)
Record StorageDriver : Type := {
  RecentStats : string → Z → result (list info.ContainerStats);
}.

End storage.

(** ** [manager/container.go]: the per-container manager *)

Module manager.

Import Word.

(** The three command-line flags the manager reads. *)
Record flags : Type := {
  HousekeepingInterval : time.Duration;
  maxHousekeepingInterval : time.Duration;
  allowDynamicHousekeeping : bool;
}.

(** The flags' default values. *)
Definition default_flags : flags :=
  {| HousekeepingInterval := 1 * time.Second;
     maxHousekeepingInterval := 60 * time.Second;
     allowDynamicHousekeeping := true |}.

Record containerInfo : Type := {
  Reference : info.ContainerReference;
  Subcontainers : list info.ContainerReference;
  Spec : option info.ContainerSpec;
}.

(** A buffered channel of booleans: its capacity and the values queued. *)
Record chan : Type := {
  cap : nat;
  queue : list bool;
}.

Definition make_chan (n : nat) : chan := {| cap := n; queue := [] |}.

(** The manager's control block.  The embedding is sequential: the mutex
    [lock] is taken and released inside [updateSpec], [updateSubcontainers]
    and [GetInfo] and is free between operations, so it carries no state
    here.  The two interface values are the objects they refer to. *)
Record containerData : Type := {
  handler : container.ContainerHandler;
  info_ : containerInfo;
  storageDriver : storage.StorageDriver;
  housekeepingInterval : time.Duration;
  stop : chan;
}.

Definition set_housekeepingInterval (d : time.Duration) (c : containerData)
  : containerData :=
  {| handler := handler c; info_ := info_ c; storageDriver := storageDriver c;
     housekeepingInterval := d; stop := stop c |}.

Definition set_storageDriver (d : storage.StorageDriver)
    (c : containerData) : containerData :=
  {| handler := handler c; info_ := info_ c; storageDriver := d;
     housekeepingInterval := housekeepingInterval c; stop := stop c |}.

Definition set_Spec (s : option info.ContainerSpec) (c : containerData)
  : containerData :=
  {| handler := handler c;
     info_ := {| Reference := Reference (info_ c);
                 Subcontainers := Subcontainers (info_ c); Spec := s |};
     storageDriver := storageDriver c;
     housekeepingInterval := housekeepingInterval c; stop := stop c |}.

Definition set_Subcontainers (l : list info.ContainerReference)
    (c : containerData) : containerData :=
  {| handler := handler c;
     info_ := {| Reference := Reference (info_ c);
                 Subcontainers := l; Spec := Spec (info_ c) |};
     storageDriver := storageDriver c;
     housekeepingInterval := housekeepingInterval c; stop := stop c |}.

(** The goroutines the run-time system has been asked to run. *)
Inductive goroutine : Type :=
| housekeeping (containerName : string).

Definition runtime : Type := list goroutine.

(** [Start]: [go c.housekeeping()]. *)
Definition Start (c : containerData) (rt : runtime) : option error * runtime :=
  (None, rt ++ [housekeeping (info.Name (Reference (info_ c)))]).

(** [NewContainerData].  [NewContainerHandler] is the factory of package
    [container]; the run-time system is threaded through to record the
    goroutines launched (none). *)
Definition NewContainerData
    (fl : flags)
    (NewContainerHandler : string → result container.ContainerHandler)
    (containerName : string) (driver : option storage.StorageDriver)
    (rt : runtime)
  : result containerData * runtime :=
  match driver with
  | None => (Err "nil storage driver"%string, rt)
  | Some d =>
      match NewContainerHandler containerName with
      | Err err => (Err err, rt)
      | Ok h =>
          match container.ContainerReference h with
          | Err err => (Err err, rt)
          | Ok ref =>
              (Ok {| handler := h;
                     info_ := {| Reference := {| info.Name := info.Name ref;
                                                 info.Aliases := info.Aliases ref |};
                                 Subcontainers := []; Spec := None |};
                     storageDriver := d;
                     housekeepingInterval := HousekeepingInterval fl;
                     stop := make_chan 1 |},
               rt)
          end
      end
  end.

(** *** Methods that update the control block

    A method with receiver [c *containerData] is a computation that reads
    and writes the control block and returns a value. *)

Definition M (A : Type) : Type := containerData → A * containerData.

#[global] Instance M_ret : MRet M := λ A a c, (a, c).
#[global] Instance M_bind : MBind M :=
  λ A B k m c, let (a, c') := m c in k a c'.

Definition get : M containerData := λ c, (c, c).
Definition modify (f : containerData → containerData) : M unit :=
  λ c, (tt, f c).

(** [updateSpec] and [updateSubcontainers] return Go's [error]: [None] is
    [nil]. *)
Definition updateSpec : M (option error) :=
  c ← get;
  match container.GetSpec (handler c) with
  | Err err => mret (Some err)
  | Ok spec => modify (set_Spec spec);; mret None
  end.

Definition updateSubcontainers : M (option error) :=
  c ← get;
  match container.ListContainers (handler c) container.LIST_SELF with
  | Err err => mret (Some err)
  | Ok subcontainers => modify (set_Subcontainers subcontainers);; mret None
  end.

Definition GetInfo : M (result containerInfo) :=
  err ← updateSpec;
  match err with
  | Some e => mret (Err e)
  | None =>
      err ← updateSubcontainers;
      match err with
      | Some e => mret (Err e)
      | None => c ← get; mret (Ok (info_ c))
      end
  end.

(** [nextHousekeeping]. *)
Definition nextHousekeeping (fl : flags) (lastHousekeeping : time.Time)
  : M time.Time :=
  (if allowDynamicHousekeeping fl then
     self ← get;
     match storage.RecentStats (storageDriver self)
             (info.Name (Reference (info_ self))) 2 with
     | Err _ => mret tt
     | Ok [s0; s1] =>
         if info.StatsEq s0 s1
            && (housekeepingInterval self <? maxHousekeepingInterval fl)
         then
           modify (λ self, set_housekeepingInterval
                             (mul_i64 (housekeepingInterval self) 2) self);;
           self ← get;
           if housekeepingInterval self >? maxHousekeepingInterval fl
           then modify (set_housekeepingInterval (maxHousekeepingInterval fl))
           else mret tt
         else if negb (housekeepingInterval self =? HousekeepingInterval fl)
         then modify (set_housekeepingInterval (HousekeepingInterval fl))
         else mret tt
     | Ok _ => mret tt
     end
   else mret tt);;
  self ← get;
  mret (time.Add lastHousekeeping (housekeepingInterval self)).

(** The invariant of the data model: the interval lies between the baseline
    and the maximum. *)
Definition within_bounds (fl : flags) (c : containerData) : Prop :=
  HousekeepingInterval fl ≤ housekeepingInterval c ≤ maxHousekeepingInterval fl.

(** A sequence of schedulings.  Between two calls the sink may have received
    any samples: each call finds the sink in the state given with it. *)
Fixpoint housekeepings (fl : flags)
    (ticks : list (storage.StorageDriver * time.Time)) (c : containerData)
  : containerData :=
  match ticks with
  | [] => c
  | (sink, lastHousekeeping) :: ticks' =>
      housekeepings fl ticks'
        (nextHousekeeping fl lastHousekeeping (set_storageDriver sink c)).2
  end.

(** *** The stop channel *)

(** The send [ch <- b]: it completes when the buffer has room and blocks
    otherwise ([None]).  No receiver ever waits on the stop channel: the
    loop polls it. *)
Definition send (b : bool) (ch : chan) : option chan :=
  if decide (length (queue ch) < cap ch)%nat
  then Some {| cap := cap ch; queue := queue ch ++ [b] |}
  else None.

(** The poll [select { case <-ch: ... default: ... }], with the number of
    senders blocked on the channel: the channel after a receive, or [None]
    for the default case.  A receive takes the oldest queued value, and the
    send of a blocked sender then completes; with nothing queued it takes
    the value of a blocked sender directly.  The code ignores the value
    received. *)
Definition poll (blocked : nat) (ch : chan) : option chan :=
  match queue ch, blocked with
  | [], O => None
  | [], S _ => Some ch
  | _ :: q, O => Some {| cap := cap ch; queue := q |}
  | _ :: q, S _ => Some {| cap := cap ch; queue := q ++ [true] |}
  end.

Definition set_stop (ch : chan) (c : containerData) : containerData :=
  {| handler := handler c; info_ := info_ c; storageDriver := storageDriver c;
     housekeepingInterval := housekeepingInterval c; stop := ch |}.

Definition set_handler (h : container.ContainerHandler) (c : containerData)
  : containerData :=
  {| handler := h; info_ := info_ c; storageDriver := storageDriver c;
     housekeepingInterval := housekeepingInterval c; stop := stop c |}.

(** [Stop]: [c.stop <- true; return nil].  [None] when the caller blocks in
    the send. *)
Definition Stop (c : containerData) : option (option error * containerData) :=
  ch ← send true (stop c);
  Some (None, set_stop ch c).

(** *** The housekeeping tick *)

(** Modelled from the spec: the sink's write method,
    [AddStats(reference, stats)], which returns an error or [nil].  It is
    given beside the control block, whose [storageDriver] holds the read
    method. *)
Definition AddStats : Type :=
  info.ContainerReference → info.ContainerStats → option error.

(** The calls of [AddStats] made so far, oldest first. *)
Definition submissions : Type :=
  list (info.ContainerReference * info.ContainerStats).

(** [updateStats]. *)
Definition updateStats (addStats : AddStats) (c : containerData)
    (sent : submissions) : option error * submissions :=
  match container.GetStats (handler c) with
  | Err err => (Some err, sent)
  | Ok None => (None, sent)
  | Ok (Some stats) =>
      match container.ContainerReference (handler c) with
      | Err err => (Some err, sent)
      | Ok ref => (addStats ref stats, sent ++ [(ref, stats)])
      end
  end.

(** [housekeepingTick]: the error of [updateStats] is logged and dropped. *)
Definition housekeepingTick (addStats : AddStats) (c : containerData)
    (sent : submissions) : submissions :=
  (updateStats addStats c sent).2.

(** *** The housekeeping loop *)

(** What one iteration of the loop finds: how many times other goroutines
    have called [Stop] since the previous iteration, the handle's answers and
    the sink's two methods at that time. *)
Record world : Type := {
  stops_requested : nat;
  answers : container.ContainerHandler;
  sink : storage.StorageDriver;
  addStats : AddStats;
}.

(** [n] calls of [Stop]: the control block after those that return, and the
    number of callers left blocked in the send. *)
Fixpoint Stops (n : nat) (c : containerData) : containerData * nat :=
  match n with
  | O => (c, O)
  | S n' =>
      match Stop c with
      | Some (_, c') => Stops n' c'
      | None => (c, n)
      end
  end.

(** The control block an iteration starts from, and the callers of [Stop]
    that are blocked at that time. *)
Definition arrive (w : world) (c : containerData) : containerData * nat :=
  Stops (stops_requested w)
    (set_handler (answers w) (set_storageDriver (sink w) c)).

(** The loop either goes on, with the time the last housekeeping was due,
    or has returned. *)
Inductive loop : Type :=
| Running (c : containerData) (lastHousekeeping : time.Time) (sent : submissions)
| Returned (c : containerData) (sent : submissions).

(** One iteration of the [for] of [housekeeping]: the poll of the stop
    channel, the tick, the scheduling.  The diagnostics and the sleep until
    the scheduled time change neither the control block nor the schedule. *)
Definition housekeeping_iteration (fl : flags) (addStats : AddStats)
    (blocked : nat) (c : containerData) (lastHousekeeping : time.Time)
    (sent : submissions) : loop :=
  match poll blocked (stop c) with
  | Some ch => Returned (set_stop ch c) sent
  | None =>
      let sent' := housekeepingTick addStats c sent in
      let (nextHousekeeping, c') := nextHousekeeping fl lastHousekeeping c in
      Running c' nextHousekeeping sent'
  end.

(** The loop of [housekeeping] (the name is the goroutine's above), run
    through the worlds its iterations find; [lastHousekeeping] starts as the
    reading of the clock on entry. *)
Fixpoint housekeeping_loop (fl : flags) (ws : list world)
    (c : containerData) (lastHousekeeping : time.Time) (sent : submissions)
  : loop :=
  match ws with
  | [] => Running c lastHousekeeping sent
  | w :: ws' =>
      let (c0, blocked) := arrive w c in
      match housekeeping_iteration fl (addStats w) blocked c0
              lastHousekeeping sent with
      | Running c' nextHousekeeping sent' =>
          housekeeping_loop fl ws' c' nextHousekeeping sent'
      | Returned c' sent' => Returned c' sent'
      end
  end.

(** The intervals the adaptation can reach from the baseline: the
    baseline doubled some number of times, or the maximum. *)
Definition on_lattice (fl : flags) (d : time.Duration) : Prop :=
  d = maxHousekeepingInterval fl
  ∨ ∃ k : nat, d = HousekeepingInterval fl * 2 ^ Z.of_nat k.

End manager.

(** * Concrete inputs *)

Module Examples.

(** A raw snapshot with the given per-CPU usage, memory usage and memory
    counters, and no network section. *)
Definition rawCgroup (percpu : list Z) (usage : Z) (stats : gmap string Z)
  : libcontainer.ContainerStats :=
  {| libcontainer.NetworkStats_ := None;
     libcontainer.CgroupStats := Some
       {| cgroups.CpuStats_ :=
            {| cgroups.CpuUsage_ :=
                 {| cgroups.TotalUsage := 7;
                    cgroups.PercpuUsage := percpu;
                    cgroups.UsageInKernelmode := 30;
                    cgroups.UsageInUsermode := 50 |} |};
          cgroups.MemoryStats_ :=
            {| cgroups.Usage := usage; cgroups.Stats_ := stats |} |} |}.

(** Scenarios A and B of the specification in one snapshot. *)
Definition rawScenarioAB : libcontainer.ContainerStats :=
  rawCgroup [100; 200] 1000
    (<["total_inactive_anon"%string := 200]>
       (<["total_active_file"%string := 50]> ∅)).

(** Two cores whose cumulative usages add up to [2^64]. *)
Definition rawTotalWraps : libcontainer.ContainerStats :=
  rawCgroup [2 ^ 64 - 1; 1] 0 ∅.

(** More inactive anonymous memory reported than memory in use. *)
Definition rawUnderflow : libcontainer.ContainerStats :=
  rawCgroup [0; 5] 100 (<["total_inactive_anon"%string := 200]> ∅).

(** Active-file pages but no [total_inactive_anon] counter. *)
Definition rawNoInactiveAnon : libcontainer.ContainerStats :=
  rawCgroup [1] 1000
    (<["total_active_file"%string := 50]> (<["pgfault"%string := 9]> ∅)).

(** Neither a cgroup section nor a network section. *)
Definition rawAbsent : libcontainer.ContainerStats :=
  {| libcontainer.NetworkStats_ := None; libcontainer.CgroupStats := None |}.

(** A sample taken at time [t] of a container using [usage] bytes. *)
Definition sample (t : time.Time) (usage : Z) : info.ContainerStats :=
  {| info.Timestamp := t;
     info.Cpu := {| info.Usage := {| info.Total := 300; info.PerCpu := [100; 200];
                                     info.User := 50; info.System := 30 |} |};
     info.Memory := {| info.MemUsage := usage; info.WorkingSet := 0;
                       info.ContainerData := info.zeroMemoryData;
                       info.HierarchicalData := info.zeroMemoryData |};
     info.Network := info.zeroNetworkStats |}.

(** A sink that holds the given samples for every container. *)
Definition sinkOf (stats : list info.ContainerStats) : storage.StorageDriver :=
  {| storage.RecentStats := λ _ _, Ok stats |}.

(** A sink whose lookups fail. *)
Definition sinkFailing : storage.StorageDriver :=
  {| storage.RecentStats := λ _ _, Err "storage unavailable"%string |}.

(** The last two samples agree on everything but the timestamp. *)
Definition sinkIdle : storage.StorageDriver :=
  sinkOf [sample 1 1000; sample 2 1000].

(** The last two samples differ in [Memory.Usage]. *)
Definition sinkActive : storage.StorageDriver :=
  sinkOf [sample 1 1000; sample 2 2000].

(** A handle whose every method succeeds. *)
Definition handlerOk (name : string) : container.ContainerHandler :=
  {| container.ContainerReference :=
       Ok {| info.Name := name; info.Aliases := ["alias"%string] |};
     container.GetSpec :=
       Ok (Some {| info.HasCpu := true; info.HasMemory := true;
                   info.HasNetwork := false; info.HasFilesystem := false |});
     container.GetStats := Ok None;
     container.ListContainers := λ _, Ok [] |}.

(** A handle that reports its spec but fails to list its subcontainers. *)
Definition handlerNoList (name : string) : container.ContainerHandler :=
  {| container.ContainerReference :=
       Ok {| info.Name := name; info.Aliases := [] |};
     container.GetSpec :=
       Ok (Some {| info.HasCpu := true; info.HasMemory := true;
                   info.HasNetwork := false; info.HasFilesystem := false |});
     container.GetStats := Ok None;
     container.ListContainers := λ _, Err "cannot list containers"%string |}.

(** A manager of the container ["/docker"] with the given handle, sink and
    current interval. *)
Definition managerWith (h : container.ContainerHandler)
    (sink : storage.StorageDriver) (interval : time.Duration)
  : manager.containerData :=
  {| manager.handler := h;
     manager.info_ :=
       {| manager.Reference := {| info.Name := "/docker"; info.Aliases := [] |};
          manager.Subcontainers := []; manager.Spec := None |};
     manager.storageDriver := sink;
     manager.housekeepingInterval := interval;
     manager.stop := manager.make_chan 1 |}.

(** Flags with a negative baseline, and flags whose maximum is the largest
    [int64]. *)
Definition flagsNegative : manager.flags :=
  {| manager.HousekeepingInterval := - (1 * time.Second);
     manager.maxHousekeepingInterval := 60 * time.Second;
     manager.allowDynamicHousekeeping := true |}.

Definition flagsHuge : manager.flags :=
  {| manager.HousekeepingInterval := 2 ^ 62;
     manager.maxHousekeepingInterval := 2 ^ 63 - 1;
     manager.allowDynamicHousekeeping := true |}.

(** A handle that fails to report its spec. *)
Definition handlerNoSpec (name : string) : container.ContainerHandler :=
  {| container.ContainerReference :=
       Ok {| info.Name := name; info.Aliases := [] |};
     container.GetSpec := Err "cannot read spec"%string;
     container.GetStats := Ok None;
     container.ListContainers := λ _, Ok [] |}.

(** A handle that reports a stats snapshot. *)
Definition handlerWithStats (name : string) : container.ContainerHandler :=
  {| container.ContainerReference :=
       Ok {| info.Name := name; info.Aliases := [] |};
     container.GetSpec := Ok None;
     container.GetStats := Ok (Some (sample 5 1000));
     container.ListContainers := λ _, Ok [] |}.

(** A sink whose writes succeed, and one whose writes fail. *)
Definition addStatsOk : manager.AddStats := λ _ _, None.
Definition addStatsFailing : manager.AddStats :=
  λ _ _, Some "storage full"%string.

(** A world in which [Stop] has been called [n] times, the handle reports
    stats and the sink holds two equal samples. *)
Definition worldWith (n : nat) : manager.world :=
  {| manager.stops_requested := n;
     manager.answers := handlerWithStats "/docker";
     manager.sink := sinkIdle;
     manager.addStats := addStatsOk |}.

(** Flags with the adaptation switched off. *)
Definition flagsStatic : manager.flags :=
  {| manager.HousekeepingInterval := 1 * time.Second;
     manager.maxHousekeepingInterval := 60 * time.Second;
     manager.allowDynamicHousekeeping := false |}.

(** A raw snapshot with a network section and page-fault counters. *)
Definition rawWithNetwork : libcontainer.ContainerStats :=
  {| libcontainer.NetworkStats_ := Some
       {| libcontainer.RxBytes := 1; libcontainer.RxPackets := 2;
          libcontainer.RxErrors := 3; libcontainer.RxDropped := 4;
          libcontainer.TxBytes := 5; libcontainer.TxPackets := 6;
          libcontainer.TxErrors := 7; libcontainer.TxDropped := 8 |};
     libcontainer.CgroupStats :=
       libcontainer.CgroupStats
         (rawCgroup [3; 4] 500
            (<["pgfault"%string := 11]> (<["pgmajfault"%string := 2]> ∅))) |}.

End Examples.

(** * Properties *)

(** ** Machine arithmetic *)

Section WordFacts.

Import Word.

Lemma modulus64_pos : 0 < modulus64.
Proof. reflexivity. Qed.

Lemma wrap_u64_small z : is_u64 z → wrap_u64 z = z.
Proof. intros Hz. apply Z.mod_small. exact Hz. Qed.

Lemma wrap_u64_range z : is_u64 (wrap_u64 z).
Proof. apply Z.mod_pos_bound, modulus64_pos. Qed.

Lemma wrap_i64_small z : is_i64 z → wrap_i64 z = z.
Proof.
  unfold is_i64, wrap_i64, half64, modulus64. intros Hz.
  rewrite Z.mod_small; lia.
Qed.

(** One wrap of a difference that underflows by less than [2^64]. *)
Lemma wrap_u64_borrow z : - modulus64 ≤ z < 0 → wrap_u64 z = z + modulus64.
Proof.
  intros Hz. unfold wrap_u64.
  rewrite <- (Z.mod_add z 1 modulus64) by (unfold modulus64; lia).
  apply Z.mod_small. lia.
Qed.

Lemma sub_u64_sub_u64 a b c : sub_u64 (sub_u64 a b) c = wrap_u64 (a - b - c).
Proof. unfold sub_u64, wrap_u64. apply Zminus_mod_idemp_l. Qed.

(** Accumulating with [+=] on a [uint64] reduces the exact sum once. *)
Lemma fold_add_u64 l t :
  wrap_u64 (fold_left add_u64 l t) = wrap_u64 (t + sum l).
Proof.
  revert t. induction l as [|x l IH]; intros t; simpl.
  - by rewrite Z.add_0_r.
  - rewrite IH. unfold add_u64, wrap_u64.
    rewrite Zplus_mod_idemp_l. f_equal. lia.
Qed.

Lemma fold_add_u64_range l t : is_u64 t → is_u64 (fold_left add_u64 l t).
Proof.
  revert t. induction l as [|x l IH]; intros t Ht; simpl; [done|].
  apply IH, wrap_u64_range.
Qed.

Lemma fold_add_u64_0 l : fold_left add_u64 l 0 = wrap_u64 (sum l).
Proof.
  rewrite <- (wrap_u64_small (fold_left add_u64 l 0)).
  - by rewrite fold_add_u64.
  - apply fold_add_u64_range. unfold is_u64, modulus64. lia.
Qed.

Lemma sum_nonneg l : Forall is_u64 l → 0 ≤ sum l.
Proof.
  induction 1 as [|x l Hx _ IH]; simpl; [lia|]. unfold is_u64 in Hx. lia.
Qed.

End WordFacts.

(** ** The normalizer *)

Section Normalizer.

Import Word helpers.

(** The loop invariant: entered at index [i] with the remaining [k]
    iterations, on a destination as long as the source, the loop does not
    panic; it leaves the first [i] destination cells, overwrites the others
    with the source's, and adds the source's cells from [i] on to [Total]. *)
Lemma percpu_loop_spec src k : ∀ i u,
  (i + k = length src)%nat →
  length (info.PerCpu u) = length src →
  percpu_loop src k i u =
    Some {| info.Total := fold_left add_u64 (drop i src) (info.Total u);
            info.PerCpu := take i (info.PerCpu u) ++ drop i src;
            info.User := info.User u;
            info.System := info.System u |}.
Proof.
  induction k as [|k IH]; intros i u Hik Hlen; simpl.
  - rewrite drop_ge by lia. rewrite take_ge by lia.
    rewrite app_nil_r. by destruct u.
  - destruct (lookup_lt_is_Some_2 src i) as [x Hx]; [lia|].
    rewrite Hx. rewrite decide_True by lia.
    rewrite IH; [|lia|simpl; by rewrite length_insert].
    rewrite (drop_S src x i Hx). simpl.
    rewrite (take_S_r _ i x) by (apply list_lookup_insert_eq; lia).
    rewrite take_insert_ge by lia.
    by rewrite <- app_assoc.
Qed.

Lemma normalizeCpu_spec c :
  normalizeCpu c =
    Some {| info.Usage :=
              {| info.Total := wrap_u64 (sum (cgroups.PercpuUsage c));
                 info.PerCpu := cgroups.PercpuUsage c;
                 info.User := cgroups.UsageInUsermode c;
                 info.System := cgroups.UsageInKernelmode c |} |}.
Proof.
  unfold normalizeCpu. cbv zeta.
  rewrite percpu_loop_spec; [|lia|simpl; by rewrite length_replicate].
  simpl. by rewrite drop_0, fold_add_u64_0.
Qed.

(** What [toContainerStats] returns, section by section. *)
Lemma toContainerStats_present now raw s :
  libcontainer.CgroupStats raw = Some s →
  ∃ r, toContainerStats now raw = Some r
       ∧ info.Timestamp r = now
       ∧ normalizeCpu (cgroups.CpuUsage_ (cgroups.CpuStats_ s)) = Some (info.Cpu r)
       ∧ info.Memory r = normalizeMemory (cgroups.MemoryStats_ s).
Proof.
  intros Hs. unfold toContainerStats. rewrite Hs.
  rewrite normalizeCpu_spec. simpl. eexists. split; [reflexivity|]. done.
Qed.

Lemma normalizeMemory_MemUsage m :
  info.MemUsage (normalizeMemory m) = cgroups.Usage m.
Proof.
  unfold normalizeMemory.
  repeat (match goal with |- context [match ?o with _ => _ end] =>
            destruct o end; simpl); reflexivity.
Qed.

Lemma normalizeMemory_WorkingSet m :
  info.WorkingSet (normalizeMemory m) =
    match cgroups.Stats_ m !! "total_inactive_anon"%string with
    | Some v =>
        match cgroups.Stats_ m !! "total_active_file"%string with
        | Some w => sub_u64 (sub_u64 (cgroups.Usage m) v) w
        | None => sub_u64 (cgroups.Usage m) v
        end
    | None => 0
    end.
Proof.
  unfold normalizeMemory.
  repeat (match goal with |- context [match ?o with _ => _ end] =>
            destruct o end; simpl); reflexivity.
Qed.

End Normalizer.

(** ** Claims on the normalizer *)

Section NormalizerClaims.

Import Word helpers Examples.

(** Closes [is_u64 z] for a closed [z]. *)
Ltac closed_u64 := vm_compute; split; [discriminate | reflexivity].

(** C5, as stated, fails: on two cores with cumulative usages [2^64 - 1] and
    [1] the per-CPU list is copied as it is, but [Total], accumulated in a
    [uint64], is [0], whereas the arithmetic sum of the entries is [2^64]. *)
Lemma toContainerStats_Total_wraps :
  let percpu := [2 ^ 64 - 1; 1] in
  Forall is_u64 percpu
  ∧ (info.PerCpu ∘ info.Usage ∘ info.Cpu) <$> toContainerStats 0 rawTotalWraps
    = Some percpu
  ∧ (info.Total ∘ info.Usage ∘ info.Cpu) <$> toContainerStats 0 rawTotalWraps
    = Some 0
  ∧ sum percpu = 2 ^ 64
  ∧ sum percpu ≠ 0.
Proof.
  cbv zeta. split.
  - repeat constructor; unfold modulus64; lia.
  - repeat split; try (vm_compute; reflexivity). vm_compute. discriminate.
Qed.

(** C5, amended: for every raw snapshot whose cgroup-stats section is
    present, the normalizer returns a [ContainerStats] whose
    [Cpu.Usage.PerCpu] is the raw per-CPU usage list (same length, same
    values, same order) and whose [Cpu.Usage.Total] is the sum of those
    entries reduced modulo [2^64] (the raw total field plays no part); it is
    the exact arithmetic sum whenever that sum is below [2^64], zero entries
    included. *)
Theorem toContainerStats_PerCpu_Total now raw s :
  libcontainer.CgroupStats raw = Some s →
  let percpu := cgroups.PercpuUsage (cgroups.CpuUsage_ (cgroups.CpuStats_ s)) in
  ∃ r, toContainerStats now raw = Some r
       ∧ info.PerCpu (info.Usage (info.Cpu r)) = percpu
       ∧ info.Total (info.Usage (info.Cpu r)) = wrap_u64 (sum percpu)
       ∧ (Forall is_u64 percpu → sum percpu < modulus64 →
          info.Total (info.Usage (info.Cpu r)) = sum percpu).
Proof.
  intros Hs percpu.
  destruct (toContainerStats_present now raw s Hs) as (r & Hr & _ & Hcpu & _).
  rewrite normalizeCpu_spec in Hcpu. injection Hcpu as Hcpu.
  exists r. rewrite <- Hcpu. simpl. repeat split; try done.
  intros Hrange Hsum. apply wrap_u64_small.
  split; [by apply sum_nonneg | done].
Qed.

Lemma toContainerStats_PerCpu_Total_witness :
  ∃ r, toContainerStats 0 rawScenarioAB = Some r
       ∧ info.PerCpu (info.Usage (info.Cpu r)) = [100; 200]
       ∧ info.Total (info.Usage (info.Cpu r)) = 300.
Proof.
  destruct (toContainerStats_PerCpu_Total 0 rawScenarioAB _ eq_refl)
    as (r & Hr & Hpercpu & _ & Htotal).
  exists r. split; [exact Hr|]. split; [exact Hpercpu|].
  apply Htotal; [|vm_compute; reflexivity].
  repeat constructor; vm_compute; discriminate.
Defined.

(** Scenario A of the specification. *)
Example scenario_A :
  (info.Usage ∘ info.Cpu) <$> toContainerStats 0 rawScenarioAB =
    Some {| info.Total := 300; info.PerCpu := [100; 200];
            info.User := 50; info.System := 30 |}.
Proof. vm_compute. reflexivity. Qed.

(** C6: for every raw snapshot with a present memory section, if the key
    [total_inactive_anon] is present with value [v], the normalized
    [WorkingSet] is [Usage - v], further minus the value of
    [total_active_file] when that key is present too, the subtractions being
    those of [uint64] (so the exact difference whenever what is subtracted
    does not exceed [Usage]); if [total_inactive_anon] is absent,
    [WorkingSet] is zero, whatever other counters are present. *)
Theorem toContainerStats_WorkingSet now raw s :
  libcontainer.CgroupStats raw = Some s →
  let m := cgroups.MemoryStats_ s in
  ∃ r, toContainerStats now raw = Some r
       ∧ info.WorkingSet (info.Memory r) =
           match cgroups.Stats_ m !! "total_inactive_anon"%string with
           | Some v =>
               match cgroups.Stats_ m !! "total_active_file"%string with
               | Some w => sub_u64 (sub_u64 (cgroups.Usage m) v) w
               | None => sub_u64 (cgroups.Usage m) v
               end
           | None => 0
           end
       ∧ (∀ v, cgroups.Stats_ m !! "total_inactive_anon"%string = Some v →
            let w := default 0 (cgroups.Stats_ m !! "total_active_file"%string) in
            0 ≤ v → 0 ≤ w → v + w ≤ cgroups.Usage m < modulus64 →
            info.WorkingSet (info.Memory r) = cgroups.Usage m - v - w).
Proof.
  intros Hs m.
  destruct (toContainerStats_present now raw s Hs) as (r & Hr & _ & _ & Hmem).
  exists r. split; [done|]. rewrite Hmem, normalizeMemory_WorkingSet. fold m.
  split; [done|]. intros v Hv w Hv0 Hw0 Hle. rewrite Hv. subst w.
  destruct (cgroups.Stats_ m !! "total_active_file"%string) as [w|]; simpl in *.
  - rewrite sub_u64_sub_u64. apply wrap_u64_small. unfold is_u64. lia.
  - unfold sub_u64. rewrite wrap_u64_small; [lia|]. unfold is_u64. lia.
Qed.

Lemma toContainerStats_WorkingSet_witness :
  ∃ r, toContainerStats 0 rawScenarioAB = Some r
       ∧ info.WorkingSet (info.Memory r) = 750.
Proof.
  destruct (toContainerStats_WorkingSet 0 rawScenarioAB _ eq_refl)
    as (r & Hr & Hws & _).
  exists r. split; [exact Hr | exact Hws].
Defined.

(** Scenario B of the specification, and a snapshot that has
    [total_active_file] but no [total_inactive_anon]. *)
Example scenario_B :
  (info.WorkingSet ∘ info.Memory) <$> toContainerStats 0 rawScenarioAB = Some 750.
Proof. vm_compute. reflexivity. Qed.

Example WorkingSet_without_inactive_anon :
  (info.WorkingSet ∘ info.Memory) <$> toContainerStats 0 rawNoInactiveAnon = Some 0.
Proof. vm_compute. reflexivity. Qed.



Example toContainerStats_absent :
  toContainerStats 42 rawAbsent =
    Some {| info.Timestamp := 42; info.Cpu := info.zeroCpuStats;
            info.Memory := info.zeroMemoryStats;
            info.Network := info.zeroNetworkStats |}.
Proof. reflexivity. Qed.

(** C9: the working-set subtraction is unguarded [uint64] arithmetic.  When
    [total_inactive_anon], plus [total_active_file] when that key is
    present, exceeds [Usage], the normalizer still returns (no error), and
    [WorkingSet] is the difference reduced modulo [2^64]: with a deficit
    below [2^64] it is [2^64] minus the deficit, and not zero. *)
Theorem toContainerStats_WorkingSet_underflow now raw s v :
  libcontainer.CgroupStats raw = Some s →
  let m := cgroups.MemoryStats_ s in
  cgroups.Stats_ m !! "total_inactive_anon"%string = Some v →
  let w := default 0 (cgroups.Stats_ m !! "total_active_file"%string) in
  is_u64 (cgroups.Usage m) → is_u64 v → is_u64 w →
  cgroups.Usage m < v + w →
  ∃ r, toContainerStats now raw = Some r
       ∧ info.WorkingSet (info.Memory r) = wrap_u64 (cgroups.Usage m - v - w)
       ∧ (v + w - cgroups.Usage m < modulus64 →
          info.WorkingSet (info.Memory r)
            = modulus64 - (v + w - cgroups.Usage m)
          ∧ 0 < info.WorkingSet (info.Memory r)).
Proof.
  intros Hs m Hv w Hu Hv64 Hw64 Hlt.
  destruct (toContainerStats_present now raw s Hs) as (r & Hr & _ & _ & Hmem).
  exists r. split; [done|]. rewrite Hmem, normalizeMemory_WorkingSet. fold m.
  rewrite Hv. unfold is_u64 in *.
  assert (Hws : match cgroups.Stats_ m !! "total_active_file"%string with
                | Some w0 => sub_u64 (sub_u64 (cgroups.Usage m) v) w0
                | None => sub_u64 (cgroups.Usage m) v
                end = wrap_u64 (cgroups.Usage m - v - w)).
  { subst w. destruct (cgroups.Stats_ m !! "total_active_file"%string); simpl.
    - apply sub_u64_sub_u64.
    - unfold sub_u64. f_equal. lia. }
  rewrite Hws. split; [done|]. intros Hdef.
  rewrite wrap_u64_borrow by lia. lia.
Qed.

Lemma toContainerStats_WorkingSet_underflow_witness :
  ∃ r, toContainerStats 0 rawUnderflow = Some r
       ∧ info.WorkingSet (info.Memory r) = 2 ^ 64 - 100.
Proof.
  pose proof (toContainerStats_WorkingSet_underflow 0 rawUnderflow _ 200
                eq_refl) as H.
  cbv zeta in H.
  destruct H as (r & Hr & _ & Hws);
    [reflexivity | closed_u64 | closed_u64 | closed_u64
    | vm_compute; reflexivity | ].
  exists r. split; [exact Hr|].
  destruct Hws as [Hws _]; [vm_compute; reflexivity|].
  exact Hws.
Defined.

End NormalizerClaims.

(** ** The interval adaptation *)

Section Adaptation.

Import Word manager.

Lemma set_housekeepingInterval_id c :
  set_housekeepingInterval (housekeepingInterval c) c = c.
Proof. by destruct c. Qed.

(** Unfolds the monadic plumbing of a method applied to a control block. *)
Ltac run_method :=
  unfold nextHousekeeping, GetInfo, updateSpec, updateSubcontainers,
    mbind, M_bind, mret, M_ret, get, modify; simpl.

(** [nextHousekeeping] writes nothing but the interval, and returns the
    last housekeeping time plus the interval it leaves. *)
Lemma nextHousekeeping_frame fl last c :
  let r := nextHousekeeping fl last c in
  r.2 = set_housekeepingInterval (housekeepingInterval r.2) c
  ∧ r.1 = time.Add last (housekeepingInterval r.2).
Proof.
  run_method.
  destruct (allowDynamicHousekeeping fl); simpl;
    [|by rewrite set_housekeepingInterval_id].
  destruct (storage.RecentStats _ _ _) as [[|s0 [|s1 [|s2 l]]]|e]; simpl;
    try by rewrite set_housekeepingInterval_id.
  destruct (info.StatsEq s0 s1 && _); simpl.
  - destruct (_ >? _); simpl; by destruct c.
  - destruct (negb _); simpl; by destruct c.
Qed.

(** Two equal samples below the maximum: the interval is doubled in
    [int64], then capped. *)
Lemma nextHousekeeping_raise fl last c s0 s1 :
  allowDynamicHousekeeping fl = true →
  storage.RecentStats (storageDriver c)
    (info.Name (Reference (info_ c))) 2 = Ok [s0; s1] →
  info.StatsEq s0 s1 = true →
  housekeepingInterval c < maxHousekeepingInterval fl →
  housekeepingInterval (nextHousekeeping fl last c).2 =
    Z.min (mul_i64 (housekeepingInterval c) 2) (maxHousekeepingInterval fl).
Proof.
  intros Hdyn Hrecent Heq Hlt. run_method. rewrite Hdyn, Hrecent, Heq. simpl.
  rewrite (proj2 (Z.ltb_lt _ _) Hlt). simpl.
  destruct (Z.gtb_spec (mul_i64 (housekeepingInterval c) 2)
              (maxHousekeepingInterval fl)); simpl; lia.
Qed.

(** Two samples, and not both equal and below the maximum: the interval is
    the baseline afterwards. *)
Lemma nextHousekeeping_lower fl last c s0 s1 :
  allowDynamicHousekeeping fl = true →
  storage.RecentStats (storageDriver c)
    (info.Name (Reference (info_ c))) 2 = Ok [s0; s1] →
  info.StatsEq s0 s1
    && (housekeepingInterval c <? maxHousekeepingInterval fl) = false →
  housekeepingInterval (nextHousekeeping fl last c).2 = HousekeepingInterval fl.
Proof.
  intros Hdyn Hrecent Hcond. run_method. rewrite Hdyn, Hrecent, Hcond. simpl.
  destruct (Z.eqb_spec (housekeepingInterval c) (HousekeepingInterval fl));
    simpl; done.
Qed.

(** The bounds are kept by one scheduling, provided the baseline is not
    negative and doubling an interval below the maximum cannot overflow. *)
Lemma nextHousekeeping_within_bounds fl last c :
  0 ≤ HousekeepingInterval fl →
  HousekeepingInterval fl ≤ maxHousekeepingInterval fl →
  maxHousekeepingInterval fl ≤ 2 ^ 62 →
  within_bounds fl c →
  within_bounds fl (nextHousekeeping fl last c).2.
Proof.
  intros Hbase Hle Hmax Hc. unfold within_bounds in *.
  destruct (allowDynamicHousekeeping fl) eqn:Hdyn;
    [|run_method; rewrite Hdyn; simpl; done].
  destruct (storage.RecentStats (storageDriver c)
              (info.Name (Reference (info_ c))) 2)
    as [[|s0 [|s1 [|s2 l]]]|e] eqn:Hrecent;
    try (run_method; rewrite Hdyn, Hrecent; simpl; done).
  destruct (info.StatsEq s0 s1
            && (housekeepingInterval c <? maxHousekeepingInterval fl))
    eqn:Hcond.
  - apply andb_true_iff in Hcond as [Heq Hlt]. apply Z.ltb_lt in Hlt.
    rewrite (nextHousekeeping_raise fl last c s0 s1) by done.
    unfold mul_i64. rewrite wrap_i64_small; [lia|].
    unfold is_i64, half64. lia.
  - rewrite (nextHousekeeping_lower fl last c s0 s1) by done. lia.
Qed.

Lemma housekeepings_within_bounds fl ticks : ∀ c,
  0 ≤ HousekeepingInterval fl →
  HousekeepingInterval fl ≤ maxHousekeepingInterval fl →
  maxHousekeepingInterval fl ≤ 2 ^ 62 →
  within_bounds fl c →
  within_bounds fl (housekeepings fl ticks c).
Proof.
  induction ticks as [|[sink last] ticks IH]; intros c Hbase Hle Hmax Hc;
    simpl; [done|].
  apply IH; [done..|]. apply nextHousekeeping_within_bounds; [done..|].
  by destruct c.
Qed.

End Adaptation.

(** ** Claims on the interval adaptation *)

Section AdaptationClaims.

Import Word manager Examples.

(** With two equal samples and the interval at the maximum, the guard of the
    raising branch is false, so the lowering branch runs: the interval
    becomes the baseline.  It stays at the maximum only when baseline and
    maximum coincide. *)
Lemma nextHousekeeping_equal_at_max fl last c s0 s1 :
  allowDynamicHousekeeping fl = true →
  storage.RecentStats (storageDriver c)
    (info.Name (Reference (info_ c))) 2 = Ok [s0; s1] →
  info.StatsEq s0 s1 = true →
  housekeepingInterval c = maxHousekeepingInterval fl →
  let r := nextHousekeeping fl last c in
  housekeepingInterval r.2 = HousekeepingInterval fl
  ∧ r.1 = time.Add last (HousekeepingInterval fl).
Proof.
  intros Hdyn Hrecent Heq Hmax r.
  assert (Hi : housekeepingInterval r.2 = HousekeepingInterval fl).
  { apply (nextHousekeeping_lower fl last c s0 s1); try done.
    rewrite Heq, Hmax, Z.ltb_irrefl. done. }
  split; [done|]. rewrite <- Hi. apply nextHousekeeping_frame.
Qed.

(** C1, on the code: with the default flags (baseline 1s, maximum 60s,
    adaptation enabled), the interval at 60s and two stored samples that are
    equal up to their timestamps, the interval after the call is 1s, not
    60s, and the wake time is the last housekeeping time plus 1s. *)
Theorem nextHousekeeping_scenario_D last :
  let c := managerWith (handlerOk "/docker") sinkIdle (60 * time.Second) in
  let r := nextHousekeeping default_flags last c in
  housekeepingInterval c = maxHousekeepingInterval default_flags
  ∧ storage.RecentStats (storageDriver c) (info.Name (Reference (info_ c))) 2
    = Ok [sample 1 1000; sample 2 1000]
  ∧ info.StatsEq (sample 1 1000) (sample 2 1000) = true
  ∧ housekeepingInterval r.2 = 1 * time.Second
  ∧ r.1 = time.Add last (1 * time.Second).
Proof. cbv zeta. repeat split; reflexivity. Qed.

(** C2, as stated, fails: with baseline [2^62] ns, maximum [2^63 - 1] ns and
    the interval at the baseline (below the maximum), two equal samples
    leave the interval at [-2^63]: the doubling overflows [int64] and the
    cap does not apply to a negative value.  The claim's
    [min(2 × old, max)] is [2^63 - 1]. *)
Lemma nextHousekeeping_doubling_overflows :
  let c := managerWith (handlerOk "/docker") sinkIdle (2 ^ 62) in
  let r := nextHousekeeping flagsHuge 0 c in
  allowDynamicHousekeeping flagsHuge = true
  ∧ storage.RecentStats (storageDriver c) (info.Name (Reference (info_ c))) 2
    = Ok [sample 1 1000; sample 2 1000]
  ∧ info.StatsEq (sample 1 1000) (sample 2 1000) = true
  ∧ housekeepingInterval c < maxHousekeepingInterval flagsHuge
  ∧ housekeepingInterval r.2 = - 2 ^ 63
  ∧ Z.min (2 * housekeepingInterval c) (maxHousekeepingInterval flagsHuge)
    = 2 ^ 63 - 1
  ∧ housekeepingInterval r.2
    ≠ Z.min (2 * housekeepingInterval c) (maxHousekeepingInterval flagsHuge).
Proof.
  cbv zeta. repeat split; try (vm_compute; reflexivity).
  vm_compute. discriminate.
Qed.

(** C2, amended: with adaptation enabled, two samples returned by the sink,
    equal under [StatsEq], and the interval strictly below the maximum, the
    interval after the call is the minimum of the maximum and of twice the
    old interval as [int64] holds it (two's complement wrap-around); it is
    [min(2 × old, max)] whenever [-2^62 ≤ old < 2^62] nanoseconds, and the
    wake time is the last housekeeping time plus the new interval. *)
Theorem nextHousekeeping_equal_below_max fl last c s0 s1 :
  allowDynamicHousekeeping fl = true →
  storage.RecentStats (storageDriver c)
    (info.Name (Reference (info_ c))) 2 = Ok [s0; s1] →
  info.StatsEq s0 s1 = true →
  housekeepingInterval c < maxHousekeepingInterval fl →
  let r := nextHousekeeping fl last c in
  housekeepingInterval r.2 =
    Z.min (wrap_i64 (2 * housekeepingInterval c)) (maxHousekeepingInterval fl)
  ∧ (- 2 ^ 62 ≤ housekeepingInterval c < 2 ^ 62 →
     housekeepingInterval r.2 =
       Z.min (2 * housekeepingInterval c) (maxHousekeepingInterval fl))
  ∧ r.1 = time.Add last (housekeepingInterval r.2).
Proof.
  intros Hdyn Hrecent Heq Hlt r.
  assert (Hi : housekeepingInterval r.2 =
               Z.min (wrap_i64 (2 * housekeepingInterval c))
                     (maxHousekeepingInterval fl)).
  { unfold r. rewrite (nextHousekeeping_raise fl last c s0 s1) by done.
    unfold mul_i64. by rewrite Z.mul_comm. }
  split; [done|]. split; [|apply nextHousekeeping_frame].
  intros Hrange. rewrite Hi, wrap_i64_small; [done|].
  unfold is_i64, half64. lia.
Qed.

(** Scenario C: baseline 1s, maximum 60s, interval at the baseline, two
    equal samples: the next interval is 2s. *)
Lemma nextHousekeeping_equal_below_max_witness :
  let c := managerWith (handlerOk "/docker") sinkIdle (1 * time.Second) in
  let r := nextHousekeeping default_flags 0 c in
  housekeepingInterval r.2 = 2 * time.Second ∧ r.1 = 2 * time.Second.
Proof.
  cbv zeta.
  destruct (nextHousekeeping_equal_below_max default_flags 0
              (managerWith (handlerOk "/docker") sinkIdle (1 * time.Second))
              (sample 1 1000) (sample 2 1000)
              eq_refl eq_refl eq_refl eq_refl) as (Hi & _ & Ht).
  split; [exact Hi | exact Ht].
Defined.

(** C3: with adaptation enabled, two samples returned by the sink that are
    not equal under [StatsEq], and the interval at [baseline × 2^k] for some
    [k > 0], the interval after the call is exactly the baseline, whatever
    [k]. *)
Theorem nextHousekeeping_unequal_resets fl last c s0 s1 (k : nat) :
  allowDynamicHousekeeping fl = true →
  storage.RecentStats (storageDriver c)
    (info.Name (Reference (info_ c))) 2 = Ok [s0; s1] →
  info.StatsEq s0 s1 = false →
  (0 < k)%nat →
  housekeepingInterval c = HousekeepingInterval fl * 2 ^ Z.of_nat k →
  housekeepingInterval (nextHousekeeping fl last c).2 = HousekeepingInterval fl.
Proof.
  intros Hdyn Hrecent Hneq _ _.
  apply (nextHousekeeping_lower fl last c s0 s1); try done.
  by rewrite Hneq.
Qed.

(** Scenario E: samples that differ in [Memory.Usage], interval 16s,
    baseline 1s: the next interval is 1s. *)
Lemma nextHousekeeping_unequal_resets_witness :
  housekeepingInterval
    (nextHousekeeping default_flags 0
       (managerWith (handlerOk "/docker") sinkActive (16 * time.Second))).2
  = 1 * time.Second.
Proof.
  exact (nextHousekeeping_unequal_resets default_flags 0
           (managerWith (handlerOk "/docker") sinkActive (16 * time.Second))
           (sample 1 1000) (sample 2 2000) 4
           eq_refl eq_refl eq_refl ltac:(lia) eq_refl).
Defined.

End AdaptationClaims.

(** ** Claims on construction, on the bounds of the interval and on [GetInfo] *)

Section ManagerClaims.

Import Word manager Examples.

Lemma NewContainerData_Ok fl factory name driver rt c rt' :
  NewContainerData fl factory name driver rt = (Ok c, rt') →
  housekeepingInterval c = HousekeepingInterval fl
  ∧ stop c = make_chan 1
  ∧ rt' = rt.
Proof.
  unfold NewContainerData. intros H.
  destruct driver as [d|]; [|done].
  destruct (factory name) as [h|e]; [|done].
  destruct (container.ContainerReference h) as [ref|e]; [|done].
  by simplify_eq.
Qed.

(** C4, as stated, fails: the baseline (-1s) is at most the maximum (60s)
    and the manager starts at the baseline, yet after one scheduling that
    finds two equal samples the interval is -2s, below the baseline. *)
Lemma housekeepingInterval_falls_below_baseline :
  let fl := flagsNegative in
  let created :=
    NewContainerData fl (λ name, Ok (handlerOk name)) "/docker"
      (Some sinkIdle) [] in
  ∃ c, created.1 = Ok c
       ∧ HousekeepingInterval fl ≤ maxHousekeepingInterval fl
       ∧ housekeepingInterval c = HousekeepingInterval fl
       ∧ housekeepingInterval (housekeepings fl [(sinkIdle, 0)] c)
         = - (2 * time.Second)
       ∧ housekeepingInterval (housekeepings fl [(sinkIdle, 0)] c)
         < HousekeepingInterval fl.
Proof.
  cbv zeta. eexists. split; [reflexivity|].
  repeat split; try (vm_compute; reflexivity). vm_compute. discriminate.
Qed.

(** The same with a baseline that is not negative: from the baseline
    [2^62] ns under the maximum [2^63 - 1] ns the doubling overflows and
    leaves the interval at [-2^63]. *)
Lemma housekeepingInterval_overflows_below_baseline :
  let fl := flagsHuge in
  let c := managerWith (handlerOk "/docker") sinkIdle (HousekeepingInterval fl) in
  0 ≤ HousekeepingInterval fl
  ∧ HousekeepingInterval fl ≤ maxHousekeepingInterval fl
  ∧ housekeepingInterval (housekeepings fl [(sinkIdle, 0)] c) = - 2 ^ 63.
Proof.
  cbv zeta. split; [vm_compute; discriminate|].
  split; [vm_compute; discriminate|]. vm_compute. reflexivity.
Qed.

(** C4, amended: assuming the baseline is not negative, is at most the
    maximum, and the maximum is at most [2^62] nanoseconds, for every
    manager returned by [NewContainerData] and every sequence of
    [nextHousekeeping] calls, whatever the sink answers at each, the interval
    is at least the baseline and at most the maximum. *)
Theorem housekeepingInterval_bounds fl factory name driver rt c rt' ticks :
  0 ≤ HousekeepingInterval fl →
  HousekeepingInterval fl ≤ maxHousekeepingInterval fl →
  maxHousekeepingInterval fl ≤ 2 ^ 62 →
  NewContainerData fl factory name driver rt = (Ok c, rt') →
  within_bounds fl (housekeepings fl ticks c).
Proof.
  intros Hbase Hle Hmax Hnew.
  apply housekeepings_within_bounds; try done.
  apply NewContainerData_Ok in Hnew as (Hi & _). unfold within_bounds. lia.
Qed.

Lemma housekeepingInterval_bounds_witness :
  ∃ c, (NewContainerData default_flags (λ name, Ok (handlerOk name)) "/docker"
          (Some sinkIdle) []).1 = Ok c
       ∧ within_bounds default_flags
           (housekeepings default_flags
              [(sinkIdle, 0); (sinkIdle, 1); (sinkFailing, 3); (sinkIdle, 7);
               (sinkActive, 15); (sinkOf [], 16)] c).
Proof.
  eexists. split; [reflexivity|].
  apply (housekeepingInterval_bounds default_flags
           (λ name, Ok (handlerOk name)) "/docker"%string (Some sinkIdle) [] _ []);
    [vm_compute; discriminate | vm_compute; discriminate
    | vm_compute; discriminate | reflexivity].
Defined.

(** C8: [NewContainerData] returns an error and no manager when the driver
    is nil, for every container name; and when it returns a manager, the
    manager's interval is the baseline, its stop channel has capacity one
    (and is empty), and no goroutine has been launched: the housekeeping
    loop is launched by [Start]. *)
Theorem NewContainerData_spec fl factory rt :
  (∀ name, NewContainerData fl factory name None rt
           = (Err "nil storage driver"%string, rt))
  ∧ (∀ name driver c rt',
       NewContainerData fl factory name driver rt = (Ok c, rt') →
       housekeepingInterval c = HousekeepingInterval fl
       ∧ cap (stop c) = 1%nat
       ∧ queue (stop c) = []
       ∧ rt' = rt
       ∧ (Start c rt').2
         = rt ++ [housekeeping (info.Name (Reference (info_ c)))]).
Proof.
  split; [done|]. intros name driver c rt' Hnew.
  apply NewContainerData_Ok in Hnew as (Hi & Hstop & ->).
  rewrite Hstop. done.
Qed.

Lemma NewContainerData_spec_witness :
  ∃ c, NewContainerData default_flags (λ name, Ok (handlerOk name)) "/docker"
         (Some sinkIdle) [] = (Ok c, [])
       ∧ housekeepingInterval c = 1 * time.Second
       ∧ cap (stop c) = 1%nat
       ∧ (Start c []).2 = [housekeeping "/docker"].
Proof.
  eexists. split; [reflexivity|].
  destruct (NewContainerData_spec default_flags (λ name, Ok (handlerOk name)) [])
    as [_ Hok].
  destruct (Hok "/docker"%string (Some sinkIdle) _ [] eq_refl)
    as (Hi & Hcap & _ & _ & Hstart).
  split; [exact Hi|]. split; [exact Hcap | exact Hstart].
Defined.

(** C10: [GetInfo] is not atomic on error.  When the spec fetch succeeds and
    the subcontainer fetch fails, [GetInfo] returns the error, and the
    control block it leaves is the one it found with [Spec] replaced by the
    spec just fetched: whenever that differs from the stored one, the state
    has changed on the error path. *)
Theorem GetInfo_error_keeps_new_Spec c spec e :
  container.GetSpec (handler c) = Ok spec →
  container.ListContainers (handler c) container.LIST_SELF = Err e →
  GetInfo c = (Err e, set_Spec spec c)
  ∧ Spec (info_ (GetInfo c).2) = spec
  ∧ Subcontainers (info_ (GetInfo c).2) = Subcontainers (info_ c)
  ∧ (Spec (info_ c) ≠ spec → (GetInfo c).2 ≠ c).
Proof.
  intros Hspec Hlist.
  assert (Hrun : GetInfo c = (Err e, set_Spec spec c)).
  { unfold GetInfo, updateSpec, updateSubcontainers,
      mbind, M_bind, mret, M_ret, get, modify.
    rewrite Hspec. simpl. rewrite Hlist. reflexivity. }
  rewrite Hrun. simpl. repeat split; try done.
  intros Hne Heq. apply Hne. rewrite <- Heq at 1. reflexivity.
Qed.

Lemma GetInfo_error_keeps_new_Spec_witness :
  let c := managerWith (handlerNoList "/docker") sinkIdle (1 * time.Second) in
  (GetInfo c).1 = Err "cannot list containers"%string
  ∧ Spec (info_ c) = None
  ∧ Spec (info_ (GetInfo c).2)
    = Some {| info.HasCpu := true; info.HasMemory := true;
              info.HasNetwork := false; info.HasFilesystem := false |}.
Proof.
  cbv zeta.
  destruct (GetInfo_error_keeps_new_Spec
              (managerWith (handlerNoList "/docker") sinkIdle (1 * time.Second))
              _ _ eq_refl eq_refl) as (Hrun & Hspec & _).
  split; [exact (f_equal fst Hrun)|]. split; [reflexivity | exact Hspec].
Defined.

(** When the spec fetch itself fails, [GetInfo] leaves the control block as
    it found it. *)
Lemma GetInfo_spec_error_unchanged c e :
  container.GetSpec (handler c) = Err e →
  GetInfo c = (Err e, c).
Proof.
  intros Hspec.
  unfold GetInfo, updateSpec, mbind, M_bind, mret, M_ret, get.
  by rewrite Hspec.
Qed.

End ManagerClaims.

(** ** More on the normalizer and its two entry points *)

Section NormalizerMore.

Import Word helpers Examples.

(** Closes [is_u64 z] for a closed [z]. *)
Ltac closed_range := vm_compute; split; [discriminate | reflexivity].

(** The shape of every result: the time of the call, a CPU and a memory
    part, and the network part decided by the network section alone. *)
Lemma toContainerStats_shape now raw :
  ∃ cpu mem,
    toContainerStats now raw =
      Some {| info.Timestamp := now; info.Cpu := cpu; info.Memory := mem;
              info.Network :=
                match libcontainer.NetworkStats_ raw with
                | Some n => toNetworkStats n
                | None => info.zeroNetworkStats
                end |}
    ∧ (libcontainer.CgroupStats raw = None →
       cpu = info.zeroCpuStats ∧ mem = info.zeroMemoryStats).
Proof.
  unfold toContainerStats. destruct (libcontainer.CgroupStats raw) as [s|].
  - rewrite normalizeCpu_spec. simpl. eexists _, _. split; [reflexivity|done].
  - simpl. eexists _, _. split; [reflexivity|done].
Qed.

Lemma normalizeMemory_pagefaults m :
  let r := normalizeMemory m in
  info.ContainerData r = info.HierarchicalData r
  ∧ info.Pgfault (info.ContainerData r)
    = default 0 (cgroups.Stats_ m !! "pgfault"%string)
  ∧ info.Pgmajfault (info.ContainerData r)
    = default 0 (cgroups.Stats_ m !! "pgmajfault"%string).
Proof.
  unfold normalizeMemory.
  repeat (match goal with |- context [match ?o with _ => _ end] =>
            destruct o end; simpl); done.
Qed.

(** The page-fault counters.  Whatever the memory section holds, the
    normalizer reports the same page-fault data for the container and for
    its hierarchy; [Pgfault] and [Pgmajfault] are the raw counters
    ["pgfault"] and ["pgmajfault"], each zero when its key is missing, and
    neither assignment disturbs the other. *)
Theorem toContainerStats_pagefaults now raw s :
  libcontainer.CgroupStats raw = Some s →
  let stats := cgroups.Stats_ (cgroups.MemoryStats_ s) in
  ∃ r, toContainerStats now raw = Some r
       ∧ info.ContainerData (info.Memory r) = info.HierarchicalData (info.Memory r)
       ∧ info.Pgfault (info.ContainerData (info.Memory r))
         = default 0 (stats !! "pgfault"%string)
       ∧ info.Pgmajfault (info.ContainerData (info.Memory r))
         = default 0 (stats !! "pgmajfault"%string).
Proof.
  intros Hs stats.
  destruct (toContainerStats_present now raw s Hs) as (r & Hr & _ & _ & Hmem).
  exists r. split; [done|]. rewrite Hmem. apply normalizeMemory_pagefaults.
Qed.

Lemma toContainerStats_pagefaults_witness :
  ∃ r, toContainerStats 0 rawWithNetwork = Some r
       ∧ info.HierarchicalData (info.Memory r)
         = {| info.Pgfault := 11; info.Pgmajfault := 2 |}.
Proof.
  destruct (toContainerStats_pagefaults 0 rawWithNetwork _ eq_refl)
    as (r & Hr & Heq & Hpf & Hpmf).
  exists r. split; [exact Hr|]. rewrite <- Heq.
  destruct (info.ContainerData (info.Memory r)) as [pf pmf].
  simpl in Hpf, Hpmf. rewrite Hpf, Hpmf. reflexivity.
Defined.

(** The counters copied verbatim.  With the cgroup section present, [User]
    and [System] are the raw user-mode and kernel-mode usages and
    [Memory.Usage] is the raw usage: the per-CPU loop and the conditional
    memory counters leave them alone. *)
Theorem toContainerStats_verbatim now raw s :
  libcontainer.CgroupStats raw = Some s →
  ∃ r, toContainerStats now raw = Some r
       ∧ info.User (info.Usage (info.Cpu r))
         = cgroups.UsageInUsermode (cgroups.CpuUsage_ (cgroups.CpuStats_ s))
       ∧ info.System (info.Usage (info.Cpu r))
         = cgroups.UsageInKernelmode (cgroups.CpuUsage_ (cgroups.CpuStats_ s))
       ∧ info.MemUsage (info.Memory r) = cgroups.Usage (cgroups.MemoryStats_ s).
Proof.
  intros Hs.
  destruct (toContainerStats_present now raw s Hs) as (r & Hr & _ & Hcpu & Hmem).
  rewrite normalizeCpu_spec in Hcpu. injection Hcpu as Hcpu.
  exists r. rewrite <- Hcpu, Hmem, normalizeMemory_MemUsage. done.
Qed.

Lemma toContainerStats_verbatim_witness :
  ∃ r, toContainerStats 0 rawScenarioAB = Some r
       ∧ info.User (info.Usage (info.Cpu r)) = 50
       ∧ info.System (info.Usage (info.Cpu r)) = 30
       ∧ info.MemUsage (info.Memory r) = 1000.
Proof.
  exact (toContainerStats_verbatim 0 rawScenarioAB _ eq_refl).
Defined.

(** The network counters.  When the raw snapshot has a network section the
    normalized [Network] carries its eight counters, each under its own
    name, whether or not the cgroup section is present. *)
Theorem toContainerStats_network now raw n :
  libcontainer.NetworkStats_ raw = Some n →
  ∃ r, toContainerStats now raw = Some r
       ∧ info.RxBytes (info.Network r) = libcontainer.RxBytes n
       ∧ info.RxPackets (info.Network r) = libcontainer.RxPackets n
       ∧ info.RxErrors (info.Network r) = libcontainer.RxErrors n
       ∧ info.RxDropped (info.Network r) = libcontainer.RxDropped n
       ∧ info.TxBytes (info.Network r) = libcontainer.TxBytes n
       ∧ info.TxPackets (info.Network r) = libcontainer.TxPackets n
       ∧ info.TxErrors (info.Network r) = libcontainer.TxErrors n
       ∧ info.TxDropped (info.Network r) = libcontainer.TxDropped n.
Proof.
  intros Hn. destruct (toContainerStats_shape now raw) as (cpu & mem & Hr & _).
  rewrite Hn in Hr. eexists. split; [exact Hr|]. simpl. done.
Qed.

Lemma toContainerStats_network_witness :
  ∃ r, toContainerStats 0 rawWithNetwork = Some r
       ∧ info.RxBytes (info.Network r) = 1
       ∧ info.TxDropped (info.Network r) = 8.
Proof.
  destruct (toContainerStats_network 0 rawWithNetwork _ eq_refl)
    as (r & Hr & Hrx & _ & _ & _ & _ & _ & _ & Htx).
  exists r. split; [exact Hr|]. split; [exact Hrx | exact Htx].
Defined.

(** A working set above the usage betrays the underflow.  With
    [total_inactive_anon] present and the counters subtracted adding up to
    less than [2^64], the normalized [WorkingSet] is at most [Usage] exactly
    when what is subtracted does not exceed [Usage]. *)
Theorem toContainerStats_WorkingSet_le_Usage now raw s v :
  libcontainer.CgroupStats raw = Some s →
  let m := cgroups.MemoryStats_ s in
  cgroups.Stats_ m !! "total_inactive_anon"%string = Some v →
  let w := default 0 (cgroups.Stats_ m !! "total_active_file"%string) in
  is_u64 (cgroups.Usage m) → 0 ≤ v → 0 ≤ w → v + w < modulus64 →
  ∃ r, toContainerStats now raw = Some r
       ∧ (info.WorkingSet (info.Memory r) ≤ info.MemUsage (info.Memory r)
          ↔ v + w ≤ cgroups.Usage m).
Proof.
  intros Hs m Hv w Hu Hv0 Hw0 Hsum.
  destruct (toContainerStats_present now raw s Hs) as (r & Hr & _ & _ & Hmem).
  exists r. split; [done|].
  rewrite Hmem, normalizeMemory_MemUsage, normalizeMemory_WorkingSet. fold m.
  rewrite Hv. unfold is_u64 in Hu.
  assert (Hws : match cgroups.Stats_ m !! "total_active_file"%string with
                | Some w0 => sub_u64 (sub_u64 (cgroups.Usage m) v) w0
                | None => sub_u64 (cgroups.Usage m) v
                end = wrap_u64 (cgroups.Usage m - v - w)).
  { subst w. destruct (cgroups.Stats_ m !! "total_active_file"%string); simpl.
    - apply sub_u64_sub_u64.
    - unfold sub_u64. f_equal. lia. }
  rewrite Hws.
  destruct (Z.le_gt_cases (v + w) (cgroups.Usage m)) as [Hle|Hgt].
  - rewrite wrap_u64_small by (unfold is_u64; lia). lia.
  - rewrite wrap_u64_borrow by lia. lia.
Qed.

Lemma toContainerStats_WorkingSet_le_Usage_witness :
  ∃ r, toContainerStats 0 rawUnderflow = Some r
       ∧ ¬ info.WorkingSet (info.Memory r) ≤ info.MemUsage (info.Memory r).
Proof.
  pose proof (toContainerStats_WorkingSet_le_Usage 0 rawUnderflow _ 200
                eq_refl) as H.
  cbv zeta in H.
  destruct H as (r & Hr & Hiff);
    [reflexivity | closed_range | vm_compute; discriminate
    | vm_compute; discriminate | vm_compute; reflexivity | ].
  exists r. split; [exact Hr|]. intros Hle.
  apply Hiff in Hle. vm_compute in Hle. apply Hle. reflexivity.
Defined.

(** [GetStatsCgroupOnly] does not panic.  An error of the cgroup library is
    returned as it is, with no stats; otherwise the stats returned carry the
    time of the call and zero network counters, and when the library hands
    back a nil pointer without an error they are zero throughout. *)
Theorem GetStatsCgroupOnly_spec now res :
  match res with
  | Err e => GetStatsCgroupOnly now res = Some (Err e)
  | Ok s =>
      ∃ r, GetStatsCgroupOnly now res = Some (Ok r)
           ∧ info.Timestamp r = now
           ∧ info.Network r = info.zeroNetworkStats
           ∧ (s = None →
              info.Cpu r = info.zeroCpuStats
              ∧ info.Memory r = info.zeroMemoryStats)
  end.
Proof.
  destruct res as [s|e]; [|done]. unfold GetStatsCgroupOnly.
  destruct (toContainerStats_shape now
              {| libcontainer.NetworkStats_ := None;
                 libcontainer.CgroupStats := s |})
    as (cpu & mem & Hr & Hcg).
  rewrite Hr. simpl. eexists. split; [reflexivity|]. simpl.
  split; [done|]. split; [done|]. intros ->. by apply Hcg.
Qed.

Lemma GetStatsCgroupOnly_spec_witness :
  GetStatsCgroupOnly 42 (Ok None) =
    Some (Ok {| info.Timestamp := 42; info.Cpu := info.zeroCpuStats;
                info.Memory := info.zeroMemoryStats;
                info.Network := info.zeroNetworkStats |}).
Proof.
  destruct (GetStatsCgroupOnly_spec 42 (Ok None))
    as (r & Hr & Ht & Hnet & Hzero).
  destruct (Hzero eq_refl) as [Hcpu Hmem].
  rewrite Hr. destruct r as [t cpu mem net]. simpl in *.
  rewrite Ht, Hcpu, Hmem, Hnet. reflexivity.
Defined.


End NormalizerMore.

(** ** More on construction and on [GetInfo] *)

Section ManagerMore.

Import Word manager Examples.

(** Unfolds the monadic plumbing of [GetInfo] applied to a control block. *)
Ltac run_GetInfo :=
  unfold GetInfo, updateSpec, updateSubcontainers,
    mbind, M_bind, mret, M_ret, get, modify; simpl.

(** The outcomes of [NewContainerData].  It never launches a goroutine.
    When it returns a manager, the driver was not nil, the factory gave a
    handle and the handle gave its reference; the manager holds that handle
    and that driver, the reference's name and aliases, no subcontainers and
    no spec.  When it returns an error, that is the nil-driver error, the
    factory's error or the reference's error, unchanged. *)
Theorem NewContainerData_outcomes fl factory name driver rt :
  (NewContainerData fl factory name driver rt).2 = rt
  ∧ match (NewContainerData fl factory name driver rt).1 with
    | Ok c =>
        ∃ d h ref,
          driver = Some d ∧ factory name = Ok h
          ∧ container.ContainerReference h = Ok ref
          ∧ handler c = h ∧ storageDriver c = d
          ∧ Reference (info_ c) = ref
          ∧ Subcontainers (info_ c) = [] ∧ Spec (info_ c) = None
    | Err e =>
        (driver = None ∧ e = "nil storage driver"%string)
        ∨ (driver ≠ None ∧ factory name = Err e)
        ∨ (driver ≠ None
           ∧ ∃ h, factory name = Ok h ∧ container.ContainerReference h = Err e)
    end.
Proof.
  unfold NewContainerData.
  destruct driver as [d|]; [|simpl; auto].
  destruct (factory name) as [h|e] eqn:Hf; [|simpl; auto].
  destruct (container.ContainerReference h) as [ref|e] eqn:Href; simpl.
  - split; [done|]. exists d, h, ref. destruct ref. done.
  - split; [done|]. right. right. split; [done|]. by exists h.
Qed.

(** [GetInfo] when both fetches succeed: the copy returned carries the
    spec and the subcontainers just fetched and the reference the manager
    was built with, and it is the info the manager now stores. *)
Theorem GetInfo_success c spec subcontainers :
  container.GetSpec (handler c) = Ok spec →
  container.ListContainers (handler c) container.LIST_SELF = Ok subcontainers →
  ∃ i, GetInfo c = (Ok i, set_Subcontainers subcontainers (set_Spec spec c))
       ∧ i = info_ (GetInfo c).2
       ∧ Spec i = spec
       ∧ Subcontainers i = subcontainers
       ∧ Reference i = Reference (info_ c).
Proof.
  intros Hspec Hlist. eexists.
  assert (Hrun : GetInfo c =
                 (Ok (info_ (set_Subcontainers subcontainers (set_Spec spec c))),
                  set_Subcontainers subcontainers (set_Spec spec c))).
  { run_GetInfo. rewrite Hspec. simpl. rewrite Hlist. reflexivity. }
  split; [exact Hrun|]. rewrite Hrun. done.
Qed.

Lemma GetInfo_success_witness :
  ∃ i, (GetInfo (managerWith (handlerOk "/docker") sinkIdle (1 * time.Second))).1
       = Ok i
       ∧ Spec i = Some {| info.HasCpu := true; info.HasMemory := true;
                          info.HasNetwork := false; info.HasFilesystem := false |}
       ∧ Subcontainers i = []
       ∧ info.Name (Reference i) = "/docker"%string.
Proof.
  destruct (GetInfo_success
              (managerWith (handlerOk "/docker") sinkIdle (1 * time.Second))
              _ _ eq_refl eq_refl) as (i & Hrun & _ & Hspec & Hsub & Href).
  exists i. split; [exact (f_equal fst Hrun)|].
  split; [exact Hspec|]. split; [exact Hsub|]. rewrite Href. reflexivity.
Defined.

(** What [GetInfo] never touches.  Whatever the handle answers, [GetInfo]
    leaves the container's reference, the handle, the sink, the
    housekeeping interval and the stop channel as they were; and every info
    it returns is the info the manager stores afterwards. *)
Theorem GetInfo_frame c :
  let r := GetInfo c in
  Reference (info_ r.2) = Reference (info_ c)
  ∧ handler r.2 = handler c
  ∧ storageDriver r.2 = storageDriver c
  ∧ housekeepingInterval r.2 = housekeepingInterval c
  ∧ stop r.2 = stop c
  ∧ match r.1 with
    | Ok i => i = info_ r.2
    | Err _ => Subcontainers (info_ r.2) = Subcontainers (info_ c)
    end.
Proof.
  run_GetInfo.
  destruct (container.GetSpec (handler c)) as [spec|e]; simpl; [|done].
  destruct (container.ListContainers (handler c) container.LIST_SELF)
    as [subs|e]; simpl; done.
Qed.

(** [GetInfo] is idempotent while the handle's answers stay the same: a
    second call returns what the first returned and leaves the state the
    first left, on the success path and on both error paths. *)
Theorem GetInfo_idempotent c :
  GetInfo (GetInfo c).2 = GetInfo c.
Proof.
  run_GetInfo.
  destruct (container.GetSpec (handler c)) as [spec|e] eqn:Hspec; simpl.
  - destruct (container.ListContainers (handler c) container.LIST_SELF)
      as [subs|e] eqn:Hlist; simpl; rewrite Hspec; simpl; rewrite Hlist; done.
  - by rewrite Hspec.
Qed.

Lemma GetInfo_spec_error_unchanged_witness :
  GetInfo (managerWith (handlerNoSpec "/docker") sinkIdle (1 * time.Second))
  = (Err "cannot read spec"%string,
     managerWith (handlerNoSpec "/docker") sinkIdle (1 * time.Second)).
Proof.
  exact (GetInfo_spec_error_unchanged
           (managerWith (handlerNoSpec "/docker") sinkIdle (1 * time.Second))
           _ eq_refl).
Defined.

End ManagerMore.

(** ** More on the interval adaptation *)

Section AdaptationMore.

Import Word manager Examples.

(** The cases in which the scheduler leaves the control block alone. *)
Lemma nextHousekeeping_same fl last c :
  allowDynamicHousekeeping fl = false
  ∨ (∃ e, storage.RecentStats (storageDriver c)
            (info.Name (Reference (info_ c))) 2 = Err e)
  ∨ (∃ l, storage.RecentStats (storageDriver c)
            (info.Name (Reference (info_ c))) 2 = Ok l ∧ length l ≠ 2%nat) →
  nextHousekeeping fl last c = (time.Add last (housekeepingInterval c), c).
Proof.
  unfold nextHousekeeping, mbind, M_bind, mret, M_ret, get, modify.
  intros [Hdyn|[[e He]|(l & Hl & Hlen)]].
  - by rewrite Hdyn.
  - destruct (allowDynamicHousekeeping fl); [|done]. by rewrite He.
  - destruct (allowDynamicHousekeeping fl); [|done]. rewrite Hl.
    by destruct l as [|s0 [|s1 [|s2 l]]].
Qed.

(** When the interval is left unchanged.  With the adaptation disabled,
    or when the sink's lookup fails, or when it returns a number of samples
    other than two, [nextHousekeeping] changes nothing in the control block
    and returns the last housekeeping time plus the current interval. *)
Theorem nextHousekeeping_unchanged fl last c :
  allowDynamicHousekeeping fl = false
  ∨ (∃ e, storage.RecentStats (storageDriver c)
            (info.Name (Reference (info_ c))) 2 = Err e)
  ∨ (∃ l, storage.RecentStats (storageDriver c)
            (info.Name (Reference (info_ c))) 2 = Ok l ∧ length l ≠ 2%nat) →
  nextHousekeeping fl last c = (time.Add last (housekeepingInterval c), c).
Proof.
  unfold nextHousekeeping, mbind, M_bind, mret, M_ret, get, modify.
  destruct (allowDynamicHousekeeping fl); [|done].
  intros [Hdyn|[[e He]|(l & Hl & Hlen)]]; [done|by rewrite He|].
  rewrite Hl. by destruct l as [|s0 [|s1 [|s2 l]]].
Qed.

Lemma nextHousekeeping_unchanged_witness :
  nextHousekeeping default_flags 7
    (managerWith (handlerOk "/docker") sinkFailing (8 * time.Second))
  = (7 + 8 * time.Second,
     managerWith (handlerOk "/docker") sinkFailing (8 * time.Second)).
Proof.
  apply (nextHousekeeping_unchanged default_flags 7
           (managerWith (handlerOk "/docker") sinkFailing (8 * time.Second))).
  right. left. eexists. reflexivity.
Defined.

(** One scheduling keeps the interval on the lattice. *)
Lemma nextHousekeeping_on_lattice fl last c :
  0 ≤ HousekeepingInterval fl →
  HousekeepingInterval fl ≤ maxHousekeepingInterval fl →
  maxHousekeepingInterval fl ≤ 2 ^ 62 →
  within_bounds fl c →
  on_lattice fl (housekeepingInterval c) →
  on_lattice fl (housekeepingInterval (nextHousekeeping fl last c).2).
Proof.
  intros Hbase Hle Hmax Hc Hlat. unfold within_bounds in Hc.
  destruct (allowDynamicHousekeeping fl) eqn:Hdyn;
    [|rewrite nextHousekeeping_same by auto; done].
  destruct (storage.RecentStats (storageDriver c)
              (info.Name (Reference (info_ c))) 2)
    as [l|e] eqn:Hrecent; [|rewrite nextHousekeeping_same by eauto; done].
  destruct (decide (length l = 2%nat)) as [Hlen|Hlen];
    [|rewrite nextHousekeeping_same by eauto; done].
  destruct l as [|s0 [|s1 [|s2 l]]]; try done.
  destruct (info.StatsEq s0 s1
            && (housekeepingInterval c <? maxHousekeepingInterval fl))
    eqn:Hcond.
  - apply andb_true_iff in Hcond as [Heq Hlt]. apply Z.ltb_lt in Hlt.
    rewrite (nextHousekeeping_raise fl last c s0 s1) by done.
    unfold mul_i64. rewrite wrap_i64_small by (unfold is_i64, half64; lia).
    destruct (Z.le_gt_cases (maxHousekeepingInterval fl)
                (housekeepingInterval c * 2)) as [Hcap|Hfit].
    + left. lia.
    + right. destruct Hlat as [Hatmax|[k Hk]]; [lia|].
      exists (S k). rewrite Nat2Z.inj_succ, Z.pow_succ_r by lia. lia.
  - rewrite (nextHousekeeping_lower fl last c s0 s1) by done.
    right. exists 0%nat. simpl. lia.
Qed.

(** The intervals reached.  Under the hypotheses of the bounds (baseline
    not negative and at most the maximum, maximum at most [2^62] ns), after
    any sequence of schedulings a manager returned by [NewContainerData] has
    an interval that is the maximum or the baseline times a power of two. *)
Theorem housekeepings_on_lattice fl factory name driver rt c rt' ticks :
  0 ≤ HousekeepingInterval fl →
  HousekeepingInterval fl ≤ maxHousekeepingInterval fl →
  maxHousekeepingInterval fl ≤ 2 ^ 62 →
  NewContainerData fl factory name driver rt = (Ok c, rt') →
  on_lattice fl (housekeepingInterval (housekeepings fl ticks c)).
Proof.
  intros Hbase Hle Hmax Hnew.
  apply NewContainerData_Ok in Hnew as (Hi & _).
  assert (Hinv : within_bounds fl c ∧ on_lattice fl (housekeepingInterval c)).
  { split; [unfold within_bounds; lia|]. right. exists 0%nat. simpl. lia. }
  clear Hi. revert c Hinv.
  induction ticks as [|[sink0 last] ticks IH]; intros c [Hb Hl]; simpl; [done|].
  apply IH. split.
  - apply nextHousekeeping_within_bounds; [done..|]. by destruct c.
  - apply nextHousekeeping_on_lattice; [done..| |]; by destruct c.
Qed.

Lemma housekeepings_on_lattice_witness :
  ∃ c, (NewContainerData default_flags (λ name, Ok (handlerOk name)) "/docker"
          (Some sinkIdle) []).1 = Ok c
       ∧ on_lattice default_flags
           (housekeepingInterval
              (housekeepings default_flags
                 [(sinkIdle, 0); (sinkIdle, 1); (sinkActive, 3); (sinkIdle, 4)] c)).
Proof.
  eexists. split; [reflexivity|].
  apply (housekeepings_on_lattice default_flags
           (λ name, Ok (handlerOk name)) "/docker"%string (Some sinkIdle) [] _ []);
    [vm_compute; discriminate | vm_compute; discriminate
    | vm_compute; discriminate | reflexivity].
Defined.

(** The ramp of an idle container.  With the adaptation enabled, starting
    from a positive interval [d], [n] schedulings in a row that each find
    two equal samples bring the interval to [d × 2^n], as long as that is at
    most the maximum (itself at most [2^62] ns). *)
Theorem housekeepings_idle_ramp fl ticks : ∀ c,
  allowDynamicHousekeeping fl = true →
  maxHousekeepingInterval fl ≤ 2 ^ 62 →
  0 < housekeepingInterval c →
  housekeepingInterval c * 2 ^ Z.of_nat (length ticks)
    ≤ maxHousekeepingInterval fl →
  Forall (λ t, ∃ s0 s1,
            storage.RecentStats t.1 (info.Name (Reference (info_ c))) 2
              = Ok [s0; s1]
            ∧ info.StatsEq s0 s1 = true) ticks →
  housekeepingInterval (housekeepings fl ticks c)
  = housekeepingInterval c * 2 ^ Z.of_nat (length ticks).
Proof.
  induction ticks as [|[sink0 last] ticks IH]; intros c Hdyn Hmax Hpos Hfit Hidle.
  - simpl. lia.
  - apply Forall_cons in Hidle as [(s0 & s1 & Hrecent & Heq) Hidle].
    simpl in Hrecent.
    cbn [length] in *. rewrite Nat2Z.inj_succ, Z.pow_succ_r in * by lia.
    assert (Hpow : 0 < 2 ^ Z.of_nat (length ticks))
      by (apply Z.pow_pos_nonneg; lia).
    set (c0 := set_storageDriver sink0 c).
    assert (Hstep : housekeepingInterval (nextHousekeeping fl last c0).2
                    = housekeepingInterval c * 2).
    { rewrite (nextHousekeeping_raise fl last c0 s0 s1);
        [|done|by destruct c|done|simpl; nia].
      unfold mul_i64. simpl.
      rewrite wrap_i64_small by (unfold is_i64, half64; nia). nia. }
    assert (Hinfo : info_ (nextHousekeeping fl last c0).2 = info_ c).
    { destruct (nextHousekeeping_frame fl last c0) as [-> _]. by destruct c. }
    cbn [housekeepings]. fold c0.
    rewrite IH; rewrite ?Hstep, ?Hinfo; try done; nia.
Qed.

Lemma housekeepings_idle_ramp_witness :
  housekeepingInterval
    (housekeepings default_flags
       [(sinkIdle, 0); (sinkIdle, 1); (sinkIdle, 3); (sinkIdle, 7); (sinkIdle, 15)]
       (managerWith (handlerOk "/docker") sinkActive (1 * time.Second)))
  = 32 * time.Second.
Proof.
  apply (housekeepings_idle_ramp default_flags
           [(sinkIdle, 0); (sinkIdle, 1); (sinkIdle, 3); (sinkIdle, 7); (sinkIdle, 15)]
           (managerWith (handlerOk "/docker") sinkActive (1 * time.Second)));
    [reflexivity | vm_compute; discriminate | reflexivity
    | vm_compute; discriminate | ].
  repeat constructor; eexists _, _; split; reflexivity.
Defined.

(** The wake time.  Under the hypotheses of the bounds, for a manager whose
    interval is within the bounds, the time [nextHousekeeping] returns is no
    earlier than the last housekeeping time plus the baseline and no later
    than that time plus the maximum. *)
Theorem nextHousekeeping_wake_bounds fl last c :
  0 ≤ HousekeepingInterval fl →
  HousekeepingInterval fl ≤ maxHousekeepingInterval fl →
  maxHousekeepingInterval fl ≤ 2 ^ 62 →
  within_bounds fl c →
  last + HousekeepingInterval fl ≤ (nextHousekeeping fl last c).1
  ∧ (nextHousekeeping fl last c).1 ≤ last + maxHousekeepingInterval fl.
Proof.
  intros Hbase Hle Hmax Hc.
  pose proof (nextHousekeeping_within_bounds fl last c Hbase Hle Hmax Hc) as Hb.
  destruct (nextHousekeeping_frame fl last c) as [_ ->].
  unfold within_bounds in Hb. unfold time.Add. lia.
Qed.

Lemma nextHousekeeping_wake_bounds_witness :
  let r := nextHousekeeping default_flags 100
             (managerWith (handlerOk "/docker") sinkIdle (4 * time.Second)) in
  100 + 1 * time.Second ≤ r.1 ∧ r.1 ≤ 100 + 60 * time.Second.
Proof.
  cbv zeta.
  apply (nextHousekeeping_wake_bounds default_flags 100
           (managerWith (handlerOk "/docker") sinkIdle (4 * time.Second)));
    [vm_compute; discriminate | vm_compute; discriminate
    | vm_compute; discriminate | ].
  split; vm_compute; discriminate.
Defined.

End AdaptationMore.

(** ** The stop channel, the tick and the loop *)

Section Loop.

Import Word manager Examples.

Lemma set_stop_id c : set_stop (stop c) c = c.
Proof. by destruct c. Qed.

(** [Stop] on a new manager, and again.  On a manager just returned by
    [NewContainerData] the first [Stop] returns nil without blocking and
    leaves one signal queued; a second [Stop], made before the loop has
    taken that signal, blocks. *)
Theorem Stop_twice fl factory name driver rt c rt' :
  NewContainerData fl factory name driver rt = (Ok c, rt') →
  ∃ c1, Stop c = Some (None, c1)
        ∧ queue (stop c1) = [true]
        ∧ housekeepingInterval c1 = housekeepingInterval c
        ∧ info_ c1 = info_ c
        ∧ Stop c1 = None.
Proof.
  intros Hnew. apply NewContainerData_Ok in Hnew as (_ & Hstop & _).
  unfold Stop, send. rewrite Hstop. simpl. eexists. split; [reflexivity|].
  simpl. done.
Qed.

Lemma Stop_twice_witness :
  ∃ c c1,
    (NewContainerData default_flags (λ name, Ok (handlerOk name)) "/docker"
       (Some sinkIdle) []).1 = Ok c
    ∧ Stop c = Some (None, c1)
    ∧ Stop c1 = None.
Proof.
  destruct (Stop_twice default_flags (λ name, Ok (handlerOk name))
              "/docker"%string (Some sinkIdle) [] _ [] eq_refl)
    as (c1 & H1 & _ & _ & _ & H2).
  eexists _, c1. split; [reflexivity|]. split; [exact H1 | exact H2].
Defined.

(** What [updateStats] submits and when it fails.  It calls [AddStats]
    exactly when the handle returns a non-nil snapshot and then its
    reference, once, with that reference and that snapshot, after the earlier
    submissions, whether or not the write then fails; and it returns nil
    exactly when the snapshot is nil or that write returns nil. *)
Theorem updateStats_submits addStats c sent :
  let r := updateStats addStats c sent in
  (r.2 ≠ sent ↔
     ∃ ref stats, container.GetStats (handler c) = Ok (Some stats)
                  ∧ container.ContainerReference (handler c) = Ok ref)
  ∧ (∀ ref stats, container.GetStats (handler c) = Ok (Some stats) →
                  container.ContainerReference (handler c) = Ok ref →
                  r = (addStats ref stats, sent ++ [(ref, stats)]))
  ∧ (r.1 = None ↔
       container.GetStats (handler c) = Ok None
       ∨ ∃ ref stats, container.GetStats (handler c) = Ok (Some stats)
                      ∧ container.ContainerReference (handler c) = Ok ref
                      ∧ addStats ref stats = None).
Proof.
  assert (Hgrow : ∀ x : info.ContainerReference * info.ContainerStats,
            sent ++ [x] ≠ sent).
  { intros x Heq. apply (f_equal length) in Heq.
    rewrite length_app in Heq. simpl in Heq. lia. }
  unfold updateStats.
  destruct (container.GetStats (handler c)) as [[stats|]|e]; simpl.
  - destruct (container.ContainerReference (handler c)) as [ref|e]; simpl.
    + split; [split; [eauto|intros _; apply Hgrow]|].
      split; [intros ?? [= <-] [= <-]; done|].
      split; [intros Hnil; right; eauto|].
      intros [?|(? & ? & [= <-] & [= <-] & ?)]; done.
    + split; [split; [done|intros (? & ? & _ & ?); done]|].
      split; [done|].
      split; [done|]. intros [?|(? & ? & _ & ? & _)]; done.
  - split; [split; [done|intros (? & ? & ? & _); done]|].
    split; [done|]. split; [by left|done].
  - split; [split; [done|intros (? & ? & ? & _); done]|].
    split; [done|]. split; [done|].
    intros [?|(? & ? & ? & _)]; done.
Qed.

Lemma updateStats_submits_witness :
  updateStats addStatsFailing
    (managerWith (handlerWithStats "/docker") sinkIdle (1 * time.Second)) []
  = (Some "storage full"%string,
     [({| info.Name := "/docker"; info.Aliases := [] |}, sample 5 1000)]).
Proof.
  destruct (updateStats_submits addStatsFailing
              (managerWith (handlerWithStats "/docker") sinkIdle (1 * time.Second))
              []) as (_ & Hsub & _).
  exact (Hsub _ _ eq_refl eq_refl).
Defined.

(** A tick keeps the earlier submissions and adds at most one. *)
Lemma housekeepingTick_sent addStats c sent :
  ∃ new, housekeepingTick addStats c sent = sent ++ new
         ∧ (length new ≤ 1)%nat.
Proof.
  unfold housekeepingTick, updateStats.
  destruct (container.GetStats (handler c)) as [[stats|]|e]; simpl;
    try (exists []; rewrite app_nil_r; simpl; split; [done|lia]).
  destruct (container.ContainerReference (handler c)) as [ref|e]; simpl.
  - eexists [_]. split; [done|simpl; lia].
  - exists []. rewrite app_nil_r. simpl. split; [done|lia].
Qed.

(** Calls of [Stop] change the stop channel only; one of them either
    leaves a signal queued or leaves its caller blocked, and a signal
    queued before stays queued. *)
Lemma Stops_spec n : ∀ c,
  ∃ ch, (Stops n c).1 = set_stop ch c
        ∧ (queue (stop c) ≠ [] → queue ch ≠ [])
        ∧ ((0 < n)%nat → queue ch ≠ [] ∨ (0 < (Stops n c).2)%nat).
Proof.
  induction n as [|n IH]; intros c; simpl.
  - exists (stop c). rewrite set_stop_id. split; [done|]. split; [done|lia].
  - unfold Stop, send.
    destruct (decide (length (queue (stop c)) < cap (stop c))%nat); simpl.
    + destruct (IH (set_stop {| cap := cap (stop c);
                                queue := queue (stop c) ++ [true] |} c))
        as (ch & Hc & Hkeep & _).
      exists ch. rewrite Hc. split; [by destruct c|].
      assert (Hq : queue ch ≠ [])
        by (apply Hkeep; simpl; by destruct (queue (stop c))).
      split; [done|]. intros _. by left.
    + exists (stop c). rewrite set_stop_id. split; [done|]. split; [done|].
      intros _. right. lia.
Qed.

(** A requested stop ends the loop.  If [Stop] has been called since the
    previous iteration, or a signal is already queued (a [Stop] made before
    [Start]), the iteration returns from the loop without a tick: nothing is
    submitted, and the interval and the info are as they were, whatever the
    worlds that would have followed. *)
Theorem housekeeping_loop_stops fl w ws c lastHousekeeping sent :
  (0 < stops_requested w)%nat ∨ queue (stop c) ≠ [] →
  ∃ c', housekeeping_loop fl (w :: ws) c lastHousekeeping sent
        = Returned c' sent
        ∧ housekeepingInterval c' = housekeepingInterval c
        ∧ info_ c' = info_ c.
Proof.
  intros Hstop. cbn [housekeeping_loop]. unfold arrive.
  set (c1 := set_handler (answers w) (set_storageDriver (sink w) c)).
  destruct (Stops_spec (stops_requested w) c1) as (ch & Hc & Hkeep & Hnew).
  destruct (Stops (stops_requested w) c1) as [c0 blocked] eqn:HS.
  simpl in Hc, Hnew. subst c0.
  unfold housekeeping_iteration. simpl.
  assert (Hpoll : ∃ ch', poll blocked ch = Some ch').
  { unfold poll. destruct Hstop as [Hn|Hq].
    - destruct (Hnew Hn) as [Hq|Hb].
      + destruct (queue ch); [done|]. destruct blocked; eauto.
      + destruct blocked; [lia|]. destruct (queue ch); eauto.
    - assert (Hq' : queue ch ≠ []) by (apply Hkeep; by destruct c).
      destruct (queue ch); [done|]. destruct blocked; eauto. }
  destruct Hpoll as [ch' ->]. eexists. split; [reflexivity|].
  by destruct c.
Qed.

Lemma housekeeping_loop_stops_witness :
  ∃ c', housekeeping_loop default_flags [worldWith 1; worldWith 0]
          (managerWith (handlerOk "/docker") sinkIdle (1 * time.Second)) 0 []
        = Returned c' []
        ∧ housekeepingInterval c' = 1 * time.Second.
Proof.
  destruct (housekeeping_loop_stops default_flags (worldWith 1) [worldWith 0]
              (managerWith (handlerOk "/docker") sinkIdle (1 * time.Second))
              0 [] (or_introl (Nat.lt_0_succ 0)))
    as (c' & Hrun & Hi & _).
  exists c'. split; [exact Hrun | exact Hi].
Defined.

(** The loop does not return on its own.  With no signal queued and no
    [Stop] called, the loop is still running after any number of
    iterations; the stop channel is still empty, the earlier submissions are
    kept in their order, and at most one sample has been submitted per
    iteration. *)
Theorem housekeeping_loop_runs fl ws : ∀ c lastHousekeeping sent,
  queue (stop c) = [] →
  Forall (λ w, stops_requested w = 0%nat) ws →
  ∃ c' last' new,
    housekeeping_loop fl ws c lastHousekeeping sent
    = Running c' last' (sent ++ new)
    ∧ queue (stop c') = []
    ∧ info_ c' = info_ c
    ∧ (length new ≤ length ws)%nat.
Proof.
  induction ws as [|w ws IH]; intros c last sent Hq Hws.
  - exists c, last, []. rewrite app_nil_r. simpl. done.
  - apply Forall_cons in Hws as [Hw Hws].
    cbn [housekeeping_loop]. unfold arrive. rewrite Hw. cbn [Stops].
    set (c1 := set_handler (answers w) (set_storageDriver (sink w) c)).
    unfold housekeeping_iteration.
    assert (Hq1 : queue (stop c1) = []) by (by destruct c).
    unfold poll. rewrite Hq1.
    destruct (housekeepingTick_sent (addStats w) c1 sent) as (new1 & -> & Hlen1).
    destruct (nextHousekeeping_frame fl last c1) as [Hc' _].
    destruct (nextHousekeeping fl last c1) as [next c'] eqn:Hnext.
    simpl in Hc'.
    destruct (IH c' next (sent ++ new1)) as (c'' & last' & new & Hrun & Hq' & Hinfo & Hlen);
      [rewrite Hc'; by destruct c | done |].
    exists c'', last', (new1 ++ new). rewrite app_assoc, Hrun.
    split; [done|]. split; [done|]. split.
    + rewrite Hinfo, Hc'. by destruct c.
    + rewrite length_app. simpl. lia.
Qed.

Lemma housekeeping_loop_runs_witness :
  ∃ c' last' new,
    housekeeping_loop default_flags [worldWith 0; worldWith 0; worldWith 0]
      (managerWith (handlerOk "/docker") sinkIdle (1 * time.Second)) 0 []
    = Running c' last' ([] ++ new)
    ∧ (length new ≤ 3)%nat.
Proof.
  destruct (housekeeping_loop_runs default_flags
              [worldWith 0; worldWith 0; worldWith 0]
              (managerWith (handlerOk "/docker") sinkIdle (1 * time.Second))
              0 [] eq_refl ltac:(repeat constructor))
    as (c' & last' & new & Hrun & _ & _ & Hlen).
  exists c', last', new. split; [exact Hrun | exact Hlen].
Defined.

(** No drift with a fixed interval.  With the adaptation disabled, no
    signal queued and no [Stop] called, after [n] iterations the time the
    last housekeeping was due is the entry time plus [n] times the interval,
    and the interval is unchanged. *)
Theorem housekeeping_loop_static_schedule fl ws : ∀ c start sent,
  allowDynamicHousekeeping fl = false →
  queue (stop c) = [] →
  Forall (λ w, stops_requested w = 0%nat) ws →
  ∃ c' sent',
    housekeeping_loop fl ws c start sent
    = Running c' (start + Z.of_nat (length ws) * housekeepingInterval c) sent'
    ∧ housekeepingInterval c' = housekeepingInterval c.
Proof.
  induction ws as [|w ws IH]; intros c start sent Hdyn Hq Hws.
  - exists c, sent. simpl. split; [f_equal; lia|done].
  - apply Forall_cons in Hws as [Hw Hws].
    cbn [housekeeping_loop]. unfold arrive. rewrite Hw. cbn [Stops].
    set (c1 := set_handler (answers w) (set_storageDriver (sink w) c)).
    unfold housekeeping_iteration.
    assert (Hq1 : queue (stop c1) = []) by (by destruct c).
    unfold poll. rewrite Hq1.
    rewrite nextHousekeeping_same by auto.
    destruct (IH c1 (time.Add start (housekeepingInterval c1))
                (housekeepingTick (addStats w) c1 sent) Hdyn Hq1 Hws)
      as (c' & sent' & Hrun & Hi).
    exists c', sent'. rewrite Hrun.
    assert (Hi1 : housekeepingInterval c1 = housekeepingInterval c)
      by (by destruct c).
    rewrite Hi, Hi1. split; [|done]. f_equal. unfold time.Add.
    cbn [length]. lia.
Qed.

Lemma housekeeping_loop_static_schedule_witness :
  ∃ c' sent',
    housekeeping_loop flagsStatic [worldWith 0; worldWith 0; worldWith 0]
      (managerWith (handlerOk "/docker") sinkIdle (1 * time.Second)) 10 []
    = Running c' (10 + 3 * time.Second) sent'.
Proof.
  destruct (housekeeping_loop_static_schedule flagsStatic
              [worldWith 0; worldWith 0; worldWith 0]
              (managerWith (handlerOk "/docker") sinkIdle (1 * time.Second))
              10 [] eq_refl eq_refl ltac:(repeat constructor))
    as (c' & sent' & Hrun & _).
  exists c', sent'. exact Hrun.
Defined.

End Loop.
